(** * oci_autonomous_data_warehouse: the desired-state reconciler

    A shallow embedding of [library/oci_autonomous_data_warehouse.py].
    The module maps the requested [state] (present, absent, restore, start,
    stop) onto calls of the database client.  The remote control plane is
    an explicit world that every client call may change or fail on; each
    call is recorded in a trace, so that "which remote calls were issued"
    is a statement about a list. *)

From stdpp Require Import base strings list gmap.
From Stdlib Require Import ZArith.

Local Open Scope string_scope.
Local Open Scope list_scope.

(** ** Python values *)

(** The values that travel through [module.params], keyword arguments and
    request models. *)
#[warnings="-register-all"]
Inductive pyval :=
| PNone
| PBool (b : bool)
| PInt (z : Z)
| PStr (s : string)
| PList (l : list pyval)
| PDict (d : gmap string pyval).

(** Keyword arguments, [module.params] and the attributes of a request
    model are all dictionaries with string keys. *)
Abbreviation kwargs := (gmap string pyval).

(** Python truthiness, as used by [if autonomous_data_warehouse_id:]. *)
Definition truthy (v : pyval) : bool :=
  match v with
  | PNone => false
  | PBool b => b
  | PInt z => negb (z =? 0)%Z
  | PStr s => negb (String.eqb s "")
  | PList l => negb (bool_decide (l = []))
  | PDict d => negb (bool_decide (d = ∅))
  end.

(** [v == "literal"]: only a string with the same characters is equal. *)
Definition py_eq_str (v : pyval) (s : string) : bool :=
  match v with
  | PStr x => String.eqb x s
  | _ => false
  end.

(** [x in l] on a list of strings. *)
Definition py_in (x : string) (l : list string) : bool :=
  bool_decide (x ∈ l).

(** [d.get(k)]: [None] when the key is missing. *)
Definition dict_get (d : kwargs) (k : string) : pyval :=
  default PNone (d !! k).

(** ** Exceptions *)

(** [oci.exceptions.ServiceError] and [ClientError]; the time-out of a wait,
    [MaximumWaitTimeExceeded], which the SDK declares as a subclass of
    [ClientError]; and Python's own [TypeError] and [ValueError]. *)
Inductive exn :=
| ServiceError (status : Z) (message : string)
| ClientError (message : string)
| MaximumWaitTimeExceeded (message : string)
| TypeError (message : string)
| ValueError (message : string).

(** [ex.message] for a service error, [str(ex)] for the others. *)
Definition str (ex : exn) : string :=
  match ex with
  | ServiceError _ m => m
  | ClientError m => m
  | MaximumWaitTimeExceeded m => m
  | TypeError m => m
  | ValueError m => m
  end.

(** [isinstance(ex, ServiceError)] *)
Definition is_ServiceError (ex : exn) : bool :=
  match ex with
  | ServiceError _ _ => true
  | _ => false
  end.

(** [isinstance(ex, ClientError)]: the class itself and its subclass. *)
Definition is_ClientError (ex : exn) : bool :=
  match ex with
  | ClientError _ | MaximumWaitTimeExceeded _ => true
  | _ => false
  end.

(** The faults of the remote service and of the client: what
    [except ServiceError] and [except ClientError] catch. *)
Definition is_fault (ex : exn) : bool :=
  is_ServiceError ex || is_ClientError ex.

(** ** The resource and the database client *)

(** The snapshot a [get] returns: the lifecycle state and the remaining
    attributes of the warehouse. *)
Record AutonomousDataWarehouse := {
  lifecycle_state : string;
  attributes : kwargs;
}.

(** The result dictionary handed to [module.exit_json]. *)
Record Result := {
  changed : bool;
  autonomous_data_warehouse : pyval;
}.

Module DatabaseClient.

(** The operations of the client that this module uses. *)
Inductive Method :=
| get_autonomous_data_warehouse
| list_autonomous_data_warehouses
| create_autonomous_data_warehouse
| update_autonomous_data_warehouse
| delete_autonomous_data_warehouse
| restore_autonomous_data_warehouse
| start_autonomous_data_warehouse
| stop_autonomous_data_warehouse.

(** [get] and [list] only read; every other operation mutates. *)
Definition mutating (m : Method) : bool :=
  match m with
  | get_autonomous_data_warehouse | list_autonomous_data_warehouses => false
  | _ => true
  end.

(** What each operation answers: [get] a snapshot or not-found, [list]
    the snapshots of a compartment, [create] the new identifier, the
    others nothing (completion is observed by waiting). *)
Definition response (m : Method) : Type :=
  match m with
  | get_autonomous_data_warehouse => option AutonomousDataWarehouse
  | list_autonomous_data_warehouses => list AutonomousDataWarehouse
  | create_autonomous_data_warehouse => pyval
  | _ => unit
  end.

(** The client over a remote world [W]: every operation, and the wait
    helper's polling, may change the world and may raise.  [wait_for kw
    states] polls [get] with the keyword arguments [kw] until one of
    [states] is reached; [None] stands for the helper's own default
    set. *)
Record t (W : Type) := {
  request : ∀ m : Method, kwargs → W → (exn + response m) * W;
  wait_for : kwargs → option (list string) → W →
             (exn + AutonomousDataWarehouse) * W;
}.
Arguments request {W}.
Arguments wait_for {W}.

End DatabaseClient.

Import DatabaseClient (Method, mutating, response, request, wait_for).

(** ** The trace of remote calls *)

Inductive Call :=
| Invoke (m : Method) (kw : kwargs)
| WaitFor (kw : kwargs) (states : option (list string)).

(** A call together with the exception it raised, if any. *)
Record Event := {
  call : Call;
  raised : option exn;
}.

(** The mutating requests of a trace, in order. *)
Fixpoint mutating_calls (tr : list Event) : list (Method * kwargs) :=
  match tr with
  | [] => []
  | {| call := Invoke m kw |} :: tr' =>
      if mutating m then (m, kw) :: mutating_calls tr' else mutating_calls tr'
  | _ :: tr' => mutating_calls tr'
  end.

(** The waits of a trace, in order. *)
Fixpoint waits (tr : list Event) : list (kwargs * option (list string)) :=
  match tr with
  | [] => []
  | {| call := WaitFor kw states |} :: tr' => (kw, states) :: waits tr'
  | _ :: tr' => waits tr'
  end.

(** ** The monad: state, exceptions and [fail_json] *)

(** A computation returns, raises, or leaves through [module.fail_json]. *)
Inductive res (A : Type) :=
| Ret (a : A)
| Throw (ex : exn)
| Halt (msg : string).
Arguments Ret {A}.
Arguments Throw {A}.
Arguments Halt {A}.

Section Monad.
Context {W : Type}.

(** The remote world, the calls issued so far and the log. *)
Record St := {
  world : W;
  trace : list Event;
  log : list string;
}.

Definition M (A : Type) : Type := St → res A * St.

Definition ret {A} (a : A) : M A := λ st, (Ret a, st).

Definition bind {A B} (c : M A) (k : A → M B) : M B := λ st,
  match c st with
  | (Ret a, st') => k a st'
  | (Throw ex, st') => (Throw ex, st')
  | (Halt msg, st') => (Halt msg, st')
  end.

Definition raise {A} (ex : exn) : M A := λ st, (Throw ex, st).

(** [module.fail_json(msg=...)] ends the process. *)
Definition fail_json {A} (msg : string) : M A := λ st, (Halt msg, st).

(** [try: body except ...: handler]; a handler answering [None] does not
    match the exception, which then propagates. *)
Definition try_except {A} (body : M A) (handler : exn → option (M A)) : M A :=
  λ st,
  match body st with
  | (Throw ex, st') =>
      match handler ex with
      | Some h => h st'
      | None => (Throw ex, st')
      end
  | r => r
  end.

(** [get_logger().error(fmt, arg)] *)
Definition logger_error (fmt arg : string) : M unit := λ st,
  (Ret tt, {| world := world st; trace := trace st;
              log := log st ++ [fmt +:+ arg] |}).

(** One remote call: apply it to the world and record it. *)
Definition remote {A} (c : Call) (op : W → (exn + A) * W) : M A := λ st,
  let '(r, w') := op (world st) in
  match r with
  | inl ex =>
      (Throw ex, {| world := w'; log := log st;
                    trace := trace st ++ [{| call := c; raised := Some ex |}] |})
  | inr a =>
      (Ret a, {| world := w'; log := log st;
                 trace := trace st ++ [{| call := c; raised := None |}] |})
  end.

(** A bound method [db_client.m], called with the keyword arguments [kw]. *)
Definition method (db_client : DatabaseClient.t W) (m : Method)
    (kw : kwargs) : M (response m) :=
  remote (Invoke m kw) (request db_client m kw).

(** The wait helper polling [get] with [kw] until one of [states]. *)
Definition wait (db_client : DatabaseClient.t W) (kw : kwargs)
    (states : option (list string)) : M AutonomousDataWarehouse :=
  remote (WaitFor kw states) (wait_for db_client kw states).

End Monad.

Arguments St : clear implicits.
Arguments M : clear implicits.

Arguments ret {W A}.
Arguments bind {W A B}.

(** stdpp's monad notations: [x ← c; k] and [c;; k]. *)
#[global] Instance M_ret {W} : MRet (M W) := @ret W.
#[global] Instance M_bind {W} : MBind (M W) := λ A B k c, bind c k.

(** ** [AnsibleModule] *)

(** Only [module.params] matters here.  [AnsibleModule] fills every declared
    option, with [None] when the play does not supply it, so
    [module.params[k]] and [module.params.get(k)] agree on them. *)
Record AnsibleModule := {
  params : kwargs;
}.

Definition params_get (module : AnsibleModule) (k : string) : pyval :=
  dict_get (params module) k.

(** ** The SDK's models *)

(** [oci.util.to_dict] and the [attribute_map] of the three request models
    come from the SDK; the module only iterates over the attribute names. *)
Record Sdk := {
  to_dict : AutonomousDataWarehouse → pyval;
  CreateAutonomousDataWarehouseDetails : list string;
  UpdateAutonomousDataWarehouseDetails : list string;
  RestoreAutonomousDataWarehouseDetails : list string;
}.

(** A fresh request model: every attribute of its map is [None]. *)
Definition new_model (attribute_map : list string) : kwargs :=
  list_to_map ((λ a, (a, PNone)) <$> attribute_map).

(** [o.__setattr__(a, v)] *)
Definition setattr (o : kwargs) (a : string) (v : pyval) : kwargs :=
  <[a := v]> o.

Definition is_none (v : pyval) : bool :=
  match v with PNone => true | _ => false end.

(** ** The helper layer *)

Module oci_utils.
Section helpers.
Context {W : Type} (sdk : Sdk).

(** Modelled from the spec: [oci_utils.get_existing_resource] is not part
    of the module's file.  "get(ref) -> ResourceSnapshot | NotFound": the
    helper issues the get and hands back the snapshot, or [None] when the
    resource is not found; a fault of the call propagates. *)
Definition get_existing_resource
    (target_fn : kwargs → M W (option AutonomousDataWarehouse))
    (module : AnsibleModule) (kw : kwargs)
    : M W (option AutonomousDataWarehouse) :=
  target_fn kw.

(** Modelled from the spec: [oci_utils.create_and_wait] is not part of the
    module's file.  "every Create ... action results in one or more calls
    to the Resource Client and ... a subsequent wait-to-terminal-state via
    the Wait Helper"; "create(attrs) -> ResourceRef".  The wait polls the
    new reference under the name [get_param]. *)
Definition create_and_wait (resource_type : string)
    (create_fn : kwargs → M W pyval) (kwargs_create : kwargs)
    (client : DatabaseClient.t W)
    (get_fn : kwargs → M W (option AutonomousDataWarehouse))
    (get_param : string) (module : AnsibleModule) : M W Result :=
  ref ← create_fn kwargs_create;
  resource ← wait client {[ get_param := ref ]} None;
  mret {| changed := true;
          autonomous_data_warehouse := to_dict sdk resource |}.

(** Modelled from the spec: [oci_utils.check_and_create_resource] is not
    part of the module's file.  "Present | no | Create, using params as
    creation attributes": the helper runs the creation function on its
    arguments. *)
Definition check_and_create_resource {K L} (resource_type : string)
    (create_fn : K → M W Result) (kwargs_create : K)
    (list_fn : kwargs → M W L) (kwargs_list : kwargs)
    (module : AnsibleModule) (model : kwargs) : M W Result :=
  create_fn kwargs_create.

(** Modelled from the spec: [oci_utils.check_and_update_resource] is not
    part of the module's file.  "only attributes explicitly supplied by
    the caller are sent in the update request"; "exactly one Update action
    is issued containing only the explicitly-supplied attributes".  The
    primitive parameters are passed by name; each non-primitive one is a
    request model carrying those of its attributes that are listed in
    [update_attributes] and that the caller supplied. *)
Definition check_and_update_resource {A} (resource_type : string)
    (get_fn : kwargs → M W (option AutonomousDataWarehouse))
    (kwargs_get : kwargs)
    (update_fn : kwargs → M W A)
    (primitive_params_update : list string)
    (kwargs_non_primitive_update : list (list string * string))
    (client : DatabaseClient.t W) (module : AnsibleModule)
    (update_attributes : list string) : M W Result :=
  let supplied (a : string) : bool :=
    bool_decide (a ∈ update_attributes) && negb (is_none (params_get module a)) in
  let update_object (attribute_map : list string) : kwargs :=
    foldl (λ o a, setattr o a (params_get module a)) ∅
          (filter (λ a, supplied a = true) attribute_map) in
  let kwargs_update : kwargs :=
    foldl (λ kw '(attribute_map, name),
             <[name := PDict (update_object attribute_map)]> kw)
          (foldl (λ kw p, <[p := params_get module p]> kw) ∅
                 primitive_params_update)
          kwargs_non_primitive_update in
  update_fn kwargs_update;;
  resource ← wait client kwargs_get None;
  mret {| changed := true;
          autonomous_data_warehouse := to_dict sdk resource |}.

(** The reference in [kwargs_get] is present when each of its values is
    truthy, the module's own test for a supplied identifier. *)
Definition ref_present (kwargs_get : kwargs) : bool :=
  forallb (λ kv, truthy kv.2) (map_to_list kwargs_get).

(** Modelled from the spec: [oci_utils.delete_and_wait] is not part of the
    module's file.  "Absent | yes | Delete" and "Absent | no | no-op,
    report unchanged": with a reference the helper deletes and waits;
    without one it issues nothing. *)
Definition delete_and_wait {A} (resource_type : string)
    (client : DatabaseClient.t W)
    (get_fn : kwargs → M W (option AutonomousDataWarehouse))
    (kwargs_get : kwargs)
    (delete_fn : kwargs → M W A) (kwargs_delete : kwargs)
    (module : AnsibleModule) : M W Result :=
  if ref_present kwargs_get then
    delete_fn kwargs_delete;;
    resource ← wait client kwargs_get None;
    mret {| changed := true;
            autonomous_data_warehouse := to_dict sdk resource |}
  else
    mret {| changed := false; autonomous_data_warehouse := PDict ∅ |}.

End helpers.
End oci_utils.

Module oci_db_utils.
Section helpers.
Context {W : Type} (sdk : Sdk).

(** Modelled from the spec: [oci_db_utils.execute_function_and_wait] is
    not part of the module's file.  "invoke Start, wait for {Available}":
    the helper calls [function] on [kwargs_function], then waits on the
    reference named [get_param] for one of [states], and reports the
    snapshot the wait ends with as a change.  Calling [None] is Python's
    [TypeError]. *)
Definition execute_function_and_wait {A} (resource_type : string)
    (function : option (kwargs → M W A)) (kwargs_function : kwargs)
    (client : DatabaseClient.t W)
    (get_fn : kwargs → M W (option AutonomousDataWarehouse))
    (get_param : string) (module : AnsibleModule)
    (states : list string) : M W Result :=
  match function with
  | None => raise (TypeError "'NoneType' object is not callable")
  | Some f =>
      f kwargs_function;;
      resource ← wait client
                   {[ get_param := dict_get kwargs_function get_param ]}
                   (Some states);
      mret {| changed := true;
              autonomous_data_warehouse := to_dict sdk resource |}
  end.

End helpers.
End oci_db_utils.

(** ** The module *)

Section module.
Context {W : Type} (sdk : Sdk).

Import DatabaseClient.

(** [type(v).__name__] *)
Definition type_name (v : pyval) : string :=
  match v with
  | PNone => "NoneType"
  | PBool _ => "bool"
  | PInt _ => "int"
  | PStr _ => "str"
  | PList _ => "list"
  | PDict _ => "dict"
  end.

(** [str + v]: concatenation is defined on strings only.  The message of
    the [TypeError] is the one of Python 2.7; Python 3 words the same error
    differently. *)
Definition str_add (s : string) (v : pyval) : M W string :=
  match v with
  | PStr t => mret (s +:+ t)
  | _ => raise (TypeError ("cannot concatenate 'str' and '" +:+ type_name v
                             +:+ "' objects"))
  end.

(** The loop [for attribute in details.attribute_map:
    details.__setattr__(attribute, module.params.get(attribute))] on a
    fresh model. *)
Definition fill_model (attribute_map : list string)
    (module : AnsibleModule) : kwargs :=
  foldl (λ details attribute,
           setattr details attribute (params_get module attribute))
        (new_model attribute_map) attribute_map.

Definition create_autonomous_data_warehouse
    (db_client : DatabaseClient.t W) (module : AnsibleModule) : M W Result :=
  let create_autonomous_data_warehouse_details :=
    fill_model (CreateAutonomousDataWarehouseDetails sdk) module in
  result ← oci_utils.create_and_wait sdk
    "autonomous_data_warehouse"
    (method db_client DatabaseClient.create_autonomous_data_warehouse)
    {[ "create_autonomous_data_warehouse_details" :=
         PDict create_autonomous_data_warehouse_details ]}
    db_client
    (method db_client get_autonomous_data_warehouse)
    "autonomous_data_warehouse_id"
    module;
  mret result.

Definition update_autonomous_data_warehouse
    (db_client : DatabaseClient.t W) (module : AnsibleModule) : M W Result :=
  result ← oci_utils.check_and_update_resource sdk
    "autonomous_data_warehouse"
    (method db_client get_autonomous_data_warehouse)
    {[ "autonomous_data_warehouse_id" :=
         params_get module "autonomous_data_warehouse_id" ]}
    (method db_client DatabaseClient.update_autonomous_data_warehouse)
    ["autonomous_data_warehouse_id"]
    [(UpdateAutonomousDataWarehouseDetails sdk,
      "update_autonomous_data_warehouse_details")]
    db_client
    module
    (UpdateAutonomousDataWarehouseDetails sdk);
  mret result.

Definition create_or_update_autonomous_data_warehouse
    (db_client : DatabaseClient.t W) (module : AnsibleModule) : M W Result :=
  let result := {| changed := false; autonomous_data_warehouse := PStr "" |} in
  let autonomous_data_warehouse_id :=
    params_get module "autonomous_data_warehouse_id" in
  result ← try_except
    (if truthy autonomous_data_warehouse_id then
       update_autonomous_data_warehouse db_client module
     else
       oci_utils.check_and_create_resource
         "autonomous_data_warehouse"
         (λ '(db_client, module),
            create_autonomous_data_warehouse db_client module)
         (db_client, module)
         (method db_client list_autonomous_data_warehouses)
         {[ "compartment_id" := params_get module "compartment_id" ]}
         module
         (new_model (CreateAutonomousDataWarehouseDetails sdk)))
    (λ ex,
       match ex with
       | ServiceError _ message => Some (
           logger_error
             "Unable to create/update autonomous data warehouse due to: "
             message;;
           fail_json message)
       | _ =>
           if is_ClientError ex then Some (
             logger_error
               "Unable to launch/update autonomous data warehouse due to: "
               (str ex);;
             fail_json (str ex))
           else None
       end);
  mret result.

Definition delete_autonomous_data_warehouse
    (db_client : DatabaseClient.t W) (module : AnsibleModule) : M W Result :=
  result ← oci_utils.delete_and_wait sdk
    "autonomous_data_warehouse"
    db_client
    (method db_client get_autonomous_data_warehouse)
    {[ "autonomous_data_warehouse_id" :=
         params_get module "autonomous_data_warehouse_id" ]}
    (method db_client DatabaseClient.delete_autonomous_data_warehouse)
    {[ "autonomous_data_warehouse_id" :=
         params_get module "autonomous_data_warehouse_id" ]}
    module;
  mret result.

Definition restore_autonomous_data_warehouse
    (db_client : DatabaseClient.t W) (module : AnsibleModule) : M W Result :=
  let result := {| changed := true; autonomous_data_warehouse := PStr "" |} in
  let autonomous_data_warehouse_id :=
    params_get module "autonomous_data_warehouse_id" in
  let restore_autonomous_data_warehouse_details :=
    fill_model (RestoreAutonomousDataWarehouseDetails sdk) module in
  result ← oci_db_utils.execute_function_and_wait sdk
    "autonomous_data_warehouse"
    (Some (method db_client DatabaseClient.restore_autonomous_data_warehouse))
    (<[ "autonomous_data_warehouse_id" := autonomous_data_warehouse_id ]>
       {[ "restore_autonomous_data_warehouse_details" :=
            PDict restore_autonomous_data_warehouse_details ]})
    db_client
    (method db_client get_autonomous_data_warehouse)
    "autonomous_data_warehouse_id"
    module
    ["AVAILABLE"; "FAILED"];
  mret result.

Definition perform_start_or_stop (db_client : DatabaseClient.t W)
    (autonomous_data_warehouse : AutonomousDataWarehouse)
    (autonomous_data_warehouse_id : pyval) (module : AnsibleModule)
    : M W Result :=
  let state := params_get module "state" in
  let '(idempotent_lifecycle_state, target_state, lifecycle_func) :=
    if py_eq_str state "start" then
      (["AVAILABLE"; "STARTING"], ["AVAILABLE"],
       Some (method db_client start_autonomous_data_warehouse))
    else if py_eq_str state "stop" then
      (["STOPPED"; "STOPPING"], ["STOPPED"],
       Some (method db_client stop_autonomous_data_warehouse))
    else ([], [], None) in
  if negb (py_in (lifecycle_state autonomous_data_warehouse)
                 idempotent_lifecycle_state) then
    oci_db_utils.execute_function_and_wait sdk
      "autonomous_data_warehouse"
      lifecycle_func
      {[ "autonomous_data_warehouse_id" := autonomous_data_warehouse_id ]}
      db_client
      (method db_client get_autonomous_data_warehouse)
      "autonomous_data_warehouse_id"
      module
      target_state
  else
    mret {| autonomous_data_warehouse := to_dict sdk autonomous_data_warehouse;
            changed := false |}.

Definition start_or_stop_autonomous_data_warehouse
    (db_client : DatabaseClient.t W) (module : AnsibleModule) : M W Result :=
  let autonomous_data_warehouse_id :=
    params_get module "autonomous_data_warehouse_id" in
  autonomous_data_warehouse ← oci_utils.get_existing_resource
    (method db_client get_autonomous_data_warehouse)
    module
    {[ "autonomous_data_warehouse_id" := autonomous_data_warehouse_id ]};
  match autonomous_data_warehouse with
  | None =>
      s ← str_add "No Autonomous Data Warehouse with id "
                  autonomous_data_warehouse_id;
      raise (ClientError (s +:+ " is found for update"))
  | Some autonomous_data_warehouse =>
      perform_start_or_stop db_client autonomous_data_warehouse
        autonomous_data_warehouse_id module
  end.

(** How the process ends: [module.exit_json], [module.fail_json], or an
    exception nobody caught. *)
Inductive Outcome :=
| exit_json (result : Result)
| failed (msg : string)
| uncaught (ex : exn).

(** [module.exit_json] on the result at the end of [main], and the two
    other ways out of the process. *)
Definition conclude (r : res Result * St W) : Outcome * St W :=
  match r with
  | (Ret result, st') => (exit_json result, st')
  | (Throw ex, st') => (uncaught ex, st')
  | (Halt msg, st') => (failed msg, st')
  end.

(** [main], from the point where the module and the client exist.
    [HAS_OCI_PY_SDK] tells whether the SDK could be imported. *)
Definition main (HAS_OCI_PY_SDK : bool) (db_client : DatabaseClient.t W)
    (module : AnsibleModule) (st : St W) : Outcome * St W :=
  conclude (
    ((if negb HAS_OCI_PY_SDK then
        fail_json "oci python sdk required for this module"
      else mret tt);;
     let state := params_get module "state" in
     if py_eq_str state "present" then
       create_or_update_autonomous_data_warehouse db_client module
     else if py_eq_str state "absent" then
       delete_autonomous_data_warehouse db_client module
     else if py_eq_str state "restore" then
       restore_autonomous_data_warehouse db_client module
     else
       start_or_stop_autonomous_data_warehouse db_client module) st).

(** The module run in a fresh process: nothing called, nothing logged. *)
Definition run_module (db_client : DatabaseClient.t W)
    (module : AnsibleModule) (w : W) : Outcome * St W :=
  main true db_client module {| world := w; trace := []; log := [] |}.

End module.

(** ** A control plane to run the module on *)

Module Cloud.

Import DatabaseClient.

(** An in-memory control plane: the warehouses by identifier. *)
Abbreviation t := (gmap string AutonomousDataWarehouse).

(** The identifier of a request; the client takes neither [None] nor an
    empty string for one. *)
Definition ident (kw : kwargs) : option string :=
  match dict_get kw "autonomous_data_warehouse_id" with
  | PStr i => if String.eqb i "" then None else Some i
  | _ => None
  end.

(** What the client raises, before any request, on a missing identifier. *)
Definition missing_id : exn :=
  ValueError
    "Parameter autonomousDataWarehouseId cannot be None, whitespace or empty string".

(** A request on an existing warehouse moves it to the state [s]; the
    client refuses a request without an identifier, the service one for an
    unknown identifier. *)
Definition transition (s : string) (kw : kwargs) (w : t) : (exn + unit) * t :=
  match ident kw with
  | None =>
      (inl missing_id, w)
  | Some i =>
      match w !! i with
      | None => (inl (ServiceError 404 "NotAuthorizedOrNotFound"), w)
      | Some a =>
          (inr tt, <[i := {| lifecycle_state := s; attributes := attributes a |}]> w)
      end
  end.

(** The state a transitional state ends in. *)
Definition settle (s : string) : string :=
  if bool_decide (s ∈ ["PROVISIONING"; "STARTING"; "UPDATING";
                       "RESTORE_IN_PROGRESS"]) then "AVAILABLE"
  else if String.eqb s "STOPPING" then "STOPPED"
  else if String.eqb s "TERMINATING" then "TERMINATED"
  else s.

Definition new_id : string := "ocid1.autonomousdwdatabase.oc1..new".

Definition request (m : Method) : kwargs → t → (exn + response m) * t :=
  match m as m0 return kwargs → t → (exn + response m0) * t with
  | get_autonomous_data_warehouse => λ kw w,
      match ident kw with
      | None =>
          (inl missing_id, w)
      | Some i => (inr (w !! i), w)
      end
  | list_autonomous_data_warehouses => λ kw w,
      (inr ((map_to_list w).*2), w)
  | create_autonomous_data_warehouse => λ kw w,
      let details :=
        match dict_get kw "create_autonomous_data_warehouse_details" with
        | PDict d => d
        | _ => ∅
        end in
      (inr (PStr new_id),
       <[new_id := {| lifecycle_state := "PROVISIONING";
                      attributes := details |}]> w)
  | update_autonomous_data_warehouse => transition "UPDATING"
  | delete_autonomous_data_warehouse => transition "TERMINATING"
  | restore_autonomous_data_warehouse => transition "RESTORE_IN_PROGRESS"
  | start_autonomous_data_warehouse => transition "STARTING"
  | stop_autonomous_data_warehouse => transition "STOPPING"
  end.

(** Waiting lets the warehouse settle; the wait fails when the state it
    settles in is not one of the acceptable ones. *)
Definition wait_for (kw : kwargs) (states : option (list string)) (w : t)
    : (exn + AutonomousDataWarehouse) * t :=
  match ident kw with
  | None =>
      (inl missing_id, w)
  | Some i =>
      match w !! i with
      | None => (inl (ServiceError 404 "NotAuthorizedOrNotFound"), w)
      | Some a =>
          let a' := {| lifecycle_state := settle (lifecycle_state a);
                       attributes := attributes a |} in
          if bool_decide (lifecycle_state a' ∈ default [lifecycle_state a'] states)
          then (inr a', <[i := a']> w)
          else (inl (MaximumWaitTimeExceeded "Maximum wait time has been exceeded"),
                <[i := a']> w)
      end
  end.

Definition client : DatabaseClient.t t :=
  {| DatabaseClient.request := request; DatabaseClient.wait_for := wait_for |}.

(** A stand-in for the SDK's models, with the attributes that the module's
    options name. *)
Definition sdk : Sdk := {|
  to_dict a := PDict (<["lifecycle_state" := PStr (lifecycle_state a)]> (attributes a));
  CreateAutonomousDataWarehouseDetails :=
    ["compartment_id"; "db_name"; "cpu_core_count"; "data_storage_size_in_tbs";
     "admin_password"; "display_name"; "license_model"];
  UpdateAutonomousDataWarehouseDetails :=
    ["cpu_core_count"; "data_storage_size_in_tbs"; "display_name";
     "admin_password"];
  RestoreAutonomousDataWarehouseDetails := ["timestamp"];
|}.

(** A client with canned answers, as a test double has: every [get] answers
    [found], whatever it is asked, every wait ends in that warehouse, and
    every other request succeeds. *)
Definition canned (found : option AutonomousDataWarehouse)
    : DatabaseClient.t unit := {|
  DatabaseClient.request m :=
    match m as m0 return kwargs → unit → (exn + response m0) * unit with
    | get_autonomous_data_warehouse => λ _ w, (inr found, w)
    | list_autonomous_data_warehouses => λ _ w, (inr (option_list found), w)
    | create_autonomous_data_warehouse => λ _ w, (inr (PStr new_id), w)
    | _ => λ _ w, (inr tt, w)
    end;
  DatabaseClient.wait_for _ _ w :=
    match found with
    | Some a => (inr a, w)
    | None => (inl (ServiceError 404 "NotAuthorizedOrNotFound"), w)
    end;
|}.

(** One warehouse, stopped. *)
Definition stopped : AutonomousDataWarehouse :=
  {| lifecycle_state := "STOPPED";
     attributes := {[ "display_name" := PStr "autonomousdb" ]} |}.

(** One warehouse, running. *)
Definition available : AutonomousDataWarehouse :=
  {| lifecycle_state := "AVAILABLE";
     attributes := {[ "display_name" := PStr "autonomousdb" ]} |}.

(** The play's arguments, as [AnsibleModule] hands them over. *)
Definition play (state : string) (id : pyval) (more : kwargs) : AnsibleModule :=
  {| params := <["state" := PStr state]>
                 (<["autonomous_data_warehouse_id" := id]> more) |}.

End Cloud.


(** * Properties of the reconciler *)

(** ** Running the monad *)

(** An event of a call that returned, and of one that raised. *)
Definition returned (c : Call) : Event := {| call := c; raised := None |}.
Definition raising (c : Call) (ex : exn) : Event :=
  {| call := c; raised := Some ex |}.

(** The keyword arguments that carry the identifier of the play. *)
Definition id_kwargs (module : AnsibleModule) : kwargs :=
  {[ "autonomous_data_warehouse_id" :=
       params_get module "autonomous_data_warehouse_id" ]}.

Section running.
Context {W : Type} (db_client : DatabaseClient.t W).

Lemma bind_run {A B} (c : M W A) (k : A → M W B) (st : St W) :
  (c ≫= k) st =
    match c st with
    | (Ret a, st') => k a st'
    | (Throw ex, st') => (Throw ex, st')
    | (Halt msg, st') => (Halt msg, st')
    end.
Proof. reflexivity. Qed.

Lemma mret_run {A} (a : A) (st : St W) : (mret a : M W A) st = (Ret a, st).
Proof. reflexivity. Qed.

Lemma method_returns m kw st a w' :
  request db_client m kw (world st) = (inr a, w') →
  method db_client m kw st =
    (Ret a, {| world := w'; trace := trace st ++ [returned (Invoke m kw)];
               log := log st |}).
Proof. intros H. unfold method, remote. now rewrite H. Qed.

Lemma method_raises m kw st ex w' :
  request db_client m kw (world st) = (inl ex, w') →
  method db_client m kw st =
    (Throw ex, {| world := w'; trace := trace st ++ [raising (Invoke m kw) ex];
                  log := log st |}).
Proof. intros H. unfold method, remote. now rewrite H. Qed.

Lemma wait_returns kw states st a w' :
  wait_for db_client kw states (world st) = (inr a, w') →
  wait db_client kw states st =
    (Ret a, {| world := w'; trace := trace st ++ [returned (WaitFor kw states)];
               log := log st |}).
Proof. intros H. unfold wait, remote. now rewrite H. Qed.

Lemma wait_raises kw states st ex w' :
  wait_for db_client kw states (world st) = (inl ex, w') →
  wait db_client kw states st =
    (Throw ex, {| world := w';
                  trace := trace st ++ [raising (WaitFor kw states) ex];
                  log := log st |}).
Proof. intros H. unfold wait, remote. now rewrite H. Qed.

End running.

Section dispatch.
Context {W : Type} (sdk : Sdk) (db_client : DatabaseClient.t W).
Context (module : AnsibleModule) (w : W).

(** The state a fresh process starts in. *)
Definition fresh : St W := {| world := w; trace := []; log := [] |}.

Lemma run_present :
  params_get module "state" = PStr "present" →
  run_module sdk db_client module w =
    conclude (create_or_update_autonomous_data_warehouse sdk db_client module fresh).
Proof. intros H. unfold run_module, main. now rewrite bind_run, H. Qed.

Lemma run_absent :
  params_get module "state" = PStr "absent" →
  run_module sdk db_client module w =
    conclude (delete_autonomous_data_warehouse sdk db_client module fresh).
Proof. intros H. unfold run_module, main. now rewrite bind_run, H. Qed.

Lemma run_restore :
  params_get module "state" = PStr "restore" →
  run_module sdk db_client module w =
    conclude (restore_autonomous_data_warehouse sdk db_client module fresh).
Proof. intros H. unfold run_module, main. now rewrite bind_run, H. Qed.

Lemma run_start_or_stop :
  params_get module "state" = PStr "start"
  ∨ params_get module "state" = PStr "stop" →
  run_module sdk db_client module w =
    conclude (start_or_stop_autonomous_data_warehouse sdk db_client module fresh).
Proof.
  intros [H|H]; unfold run_module, main; now rewrite bind_run, H.
Qed.

End dispatch.

Section call_then_wait.
Context {W : Type} (sdk : Sdk) (db_client : DatabaseClient.t W).

(** What a remote call followed by a wait does, by the answers of the
    client: the shape shared by the helpers. *)
Definition call_then_wait {A} (c : Call) (op : W → (exn + A) * W)
    (ref : A → kwargs) (states : option (list string))
    (report : AutonomousDataWarehouse → Result) (st : St W)
    : res Result * St W :=
  match op (world st) with
  | (inl ex, w1) =>
      (Throw ex, {| world := w1; log := log st;
                    trace := trace st ++ [raising c ex] |})
  | (inr x, w1) =>
      match wait_for db_client (ref x) states w1 with
      | (inl ex, w2) =>
          (Throw ex,
           {| world := w2; log := log st;
              trace := (trace st ++ [returned c])
                         ++ [raising (WaitFor (ref x) states) ex] |})
      | (inr a, w2) =>
          (Ret (report a),
           {| world := w2; log := log st;
              trace := (trace st ++ [returned c])
                         ++ [returned (WaitFor (ref x) states)] |})
      end
  end.

Lemma call_then_wait_run {A} c (op : W → (exn + A) * W) ref states report st :
  (x ← remote c op;
   resource ← wait db_client (ref x) states;
   mret (report resource)) st
  = call_then_wait c op ref states report st.
Proof.
  unfold call_then_wait. rewrite bind_run. unfold remote at 1.
  destruct (op (world st)) as [[ex|x] w1]; [reflexivity|].
  rewrite bind_run. unfold wait, remote. cbn [world trace log].
  destruct (wait_for db_client (ref x) states w1) as [[ex|a] w2]; reflexivity.
Qed.

(** The report of a change that ended in the snapshot [a]. *)
Definition changed_to (a : AutonomousDataWarehouse) : Result :=
  {| changed := true; autonomous_data_warehouse := to_dict sdk a |}.

Lemma execute_function_and_wait_run {A} (f : kwargs → M W A) c op
    (kw : kwargs) get_fn (get_param : string) module states (st : St W) :
  f kw = remote c op →
  oci_db_utils.execute_function_and_wait sdk "autonomous_data_warehouse"
    (Some f) kw db_client get_fn get_param module states st
  = call_then_wait c op (λ _, {[ get_param := dict_get kw get_param ]})
      (Some states) changed_to st.
Proof.
  intros Hf. unfold oci_db_utils.execute_function_and_wait. rewrite Hf.
  apply (call_then_wait_run c op (λ _, _)).
Qed.

(** A trace that is the call [c] and, when [c] returned, one wait on [ref]
    for [states]; when [c] raised, nothing more. *)
Definition call_followed_by_wait (c : Call) (ref : kwargs)
    (states : option (list string)) (tr : list Event) : Prop :=
  ∃ e tail, tr = {| call := c; raised := e |} :: tail
    ∧ match e with
      | Some _ => tail = []
      | None => ∃ e', tail = [{| call := WaitFor ref states; raised := e' |}]
      end.

Lemma call_then_wait_trace {A} c (op : W → (exn + A) * W) ref states report
    (st : St W) r st' :
  call_then_wait c op (λ _, ref) states report st = (r, st') →
  ∃ tr, trace st' = trace st ++ tr ∧ call_followed_by_wait c ref states tr.
Proof.
  unfold call_then_wait, call_followed_by_wait. intros H.
  destruct (op (world st)) as [[ex|x] w1].
  - inversion H; subst. cbn [trace]. eexists; split; [reflexivity|].
    exists (Some ex), []. eauto.
  - destruct (wait_for db_client ref states w1) as [[ex|a] w2];
      inversion H; subst; cbn [trace]; rewrite <- app_assoc;
      (eexists; split; [reflexivity|]); exists None; eexists;
      (split; [reflexivity|]); eauto.
Qed.

Lemma mutating_calls_app (tr tr' : list Event) :
  mutating_calls (tr ++ tr') = mutating_calls tr ++ mutating_calls tr'.
Proof.
  induction tr as [|[[m kw|kw states] e] tr IH]; cbn; [reflexivity| |exact IH].
  destruct (mutating m); cbn; now rewrite IH.
Qed.

(** A call followed by a wait adds the call, and nothing else, to the
    mutating requests. *)
Lemma call_then_wait_mutating {A} c (op : W → (exn + A) * W) ref states
    report (st : St W) r st' :
  call_then_wait c op ref states report st = (r, st') →
  mutating_calls (trace st') =
    mutating_calls (trace st) ++ mutating_calls [returned c].
Proof.
  unfold call_then_wait. intros H.
  destruct (op (world st)) as [[ex|x] w1].
  - inversion H; subst. cbn [trace]. rewrite mutating_calls_app.
    f_equal. all: destruct c; reflexivity.
  - destruct (wait_for db_client (ref x) states w1) as [[ex|a] w2];
      inversion H; subst; cbn [trace]; rewrite !mutating_calls_app;
      cbn; now rewrite app_nil_r.
Qed.


End call_then_wait.

(** ** Start and stop *)

Section start_stop.
Context {W : Type} (sdk : Sdk) (db_client : DatabaseClient.t W).

Import DatabaseClient.

Lemma dict_get_singleton (k : string) (v : pyval) :
  dict_get ({[ k := v ]} : kwargs) k = v.
Proof. unfold dict_get. now rewrite lookup_singleton_eq. Qed.

Lemma py_in_true (x : string) (l : list string) : x ∈ l → py_in x l = true.
Proof. intros H. unfold py_in. now apply bool_decide_eq_true. Qed.

Lemma py_in_false (x : string) (l : list string) : x ∉ l → py_in x l = false.
Proof. intros H. unfold py_in. now apply bool_decide_eq_false. Qed.

(** The report of a no-op on the snapshot [a]. *)
Definition unchanged (a : AutonomousDataWarehouse) : Result :=
  {| changed := false; autonomous_data_warehouse := to_dict sdk a |}.

(** The lifecycle request [m] on the identifier [id], then the wait for
    [target_state]. *)
Definition lifecycle_change (m : Method) (id : pyval)
    (target_state : list string) (st : St W) : res Result * St W :=
  call_then_wait db_client
    (Invoke m {[ "autonomous_data_warehouse_id" := id ]})
    (request db_client m {[ "autonomous_data_warehouse_id" := id ]})
    (λ _, {[ "autonomous_data_warehouse_id" := id ]})
    (Some target_state) (changed_to sdk) st.

Lemma perform_start_run adw id module (st : St W) :
  params_get module "state" = PStr "start" →
  perform_start_or_stop sdk db_client adw id module st =
    if py_in (lifecycle_state adw) ["AVAILABLE"; "STARTING"] then
      (Ret (unchanged adw), st)
    else
      lifecycle_change start_autonomous_data_warehouse id ["AVAILABLE"] st.
Proof.
  intros H. unfold perform_start_or_stop. rewrite H.
  change (py_eq_str (PStr "start") "start") with true. cbv iota beta.
  destruct (py_in _ _); cbn [negb]; [reflexivity|].
  unfold lifecycle_change.
  erewrite execute_function_and_wait_run by reflexivity.
  now rewrite dict_get_singleton.
Qed.

Lemma perform_stop_run adw id module (st : St W) :
  params_get module "state" = PStr "stop" →
  perform_start_or_stop sdk db_client adw id module st =
    if py_in (lifecycle_state adw) ["STOPPED"; "STOPPING"] then
      (Ret (unchanged adw), st)
    else
      lifecycle_change stop_autonomous_data_warehouse id ["STOPPED"] st.
Proof.
  intros H. unfold perform_start_or_stop. rewrite H.
  change (py_eq_str (PStr "stop") "start") with false.
  change (py_eq_str (PStr "stop") "stop") with true. cbv iota beta.
  destruct (py_in _ _); cbn [negb]; [reflexivity|].
  unfold lifecycle_change.
  erewrite execute_function_and_wait_run by reflexivity.
  now rewrite dict_get_singleton.
Qed.

(** The state in which the answer of the get leaves the process. *)
Definition after_get (module : AnsibleModule) (e : option exn) (w' : W) : St W :=
  {| world := w';
     trace := [{| call := Invoke get_autonomous_data_warehouse (id_kwargs module);
                  raised := e |}];
     log := [] |}.

Lemma start_or_stop_found module (w w' : W) adw :
  request db_client get_autonomous_data_warehouse (id_kwargs module) w
    = (inr (Some adw), w') →
  start_or_stop_autonomous_data_warehouse sdk db_client module (fresh w) =
    perform_start_or_stop sdk db_client adw
      (params_get module "autonomous_data_warehouse_id") module
      (after_get module None w').
Proof.
  intros Hget. unfold start_or_stop_autonomous_data_warehouse.
  rewrite bind_run. unfold oci_utils.get_existing_resource.
  erewrite method_returns by exact Hget. reflexivity.
Qed.

Lemma start_or_stop_not_found module (w w' : W) :
  request db_client get_autonomous_data_warehouse (id_kwargs module) w
    = (inr None, w') →
  start_or_stop_autonomous_data_warehouse sdk db_client module (fresh w) =
    (s ← str_add "No Autonomous Data Warehouse with id "
                 (params_get module "autonomous_data_warehouse_id");
     raise (ClientError (s +:+ " is found for update")))
      (after_get module None w').
Proof.
  intros Hget. unfold start_or_stop_autonomous_data_warehouse.
  rewrite bind_run. unfold oci_utils.get_existing_resource.
  erewrite method_returns by exact Hget. reflexivity.
Qed.

Lemma start_or_stop_get_raises module (w w' : W) ex :
  request db_client get_autonomous_data_warehouse (id_kwargs module) w
    = (inl ex, w') →
  start_or_stop_autonomous_data_warehouse sdk db_client module (fresh w) =
    (Throw ex, after_get module (Some ex) w').
Proof.
  intros Hget. unfold start_or_stop_autonomous_data_warehouse.
  rewrite bind_run. unfold oci_utils.get_existing_resource.
  erewrite method_raises by exact Hget. reflexivity.
Qed.

(** A lifecycle change issued right after the get: the request [m] is the
    one mutating call, and the trace is the get, the request and its wait. *)
Lemma lifecycle_change_after_get m module target e w' r st :
  mutating m = true →
  lifecycle_change m (params_get module "autonomous_data_warehouse_id") target
    (after_get module e w') = (r, st) →
  mutating_calls (trace st) = [(m, id_kwargs module)]
  ∧ ∃ tr, trace st = {| call := Invoke get_autonomous_data_warehouse
                                   (id_kwargs module);
                        raised := e |} :: tr
      ∧ call_followed_by_wait (Invoke m (id_kwargs module)) (id_kwargs module)
          (Some target) tr.
Proof.
  intros Hm H. unfold lifecycle_change in H. split.
  - apply call_then_wait_mutating in H. rewrite H. cbn. now rewrite Hm.
  - apply call_then_wait_trace in H as (tr & -> & Htr). now exists tr.
Qed.

(** C1.  Start on a warehouse that the get reports as AVAILABLE or STARTING:
    the get is the only remote call, so no mutating call is issued; the
    module exits with [changed = false] and with the snapshot that this get
    observed. *)
Theorem start_on_running_is_noop (module : AnsibleModule) (w w' : W)
    (adw : AutonomousDataWarehouse) :
  params_get module "state" = PStr "start" →
  request db_client get_autonomous_data_warehouse (id_kwargs module) w
    = (inr (Some adw), w') →
  lifecycle_state adw ∈ ["AVAILABLE"; "STARTING"] →
  ∃ st, run_module sdk db_client module w
        = (exit_json {| changed := false;
                        autonomous_data_warehouse := to_dict sdk adw |}, st)
    ∧ mutating_calls (trace st) = []
    ∧ trace st = [returned (Invoke get_autonomous_data_warehouse
                              (id_kwargs module))]
    ∧ world st = w'.
Proof.
  intros Hstate Hget Hin.
  rewrite run_start_or_stop by now left.
  rewrite (start_or_stop_found _ _ _ _ Hget), perform_start_run by exact Hstate.
  rewrite py_in_true by exact Hin.
  eexists. split; [reflexivity|]. now cbn.
Qed.

(** C3.  Start on a warehouse that the get reports in any other state:
    exactly one mutating call is issued, the Start on the identifier; it
    comes right after the get and, when it returns, is followed by one wait
    whose acceptable states are exactly AVAILABLE. *)
Theorem start_elsewhere_starts_and_waits (module : AnsibleModule) (w w' : W)
    (adw : AutonomousDataWarehouse) :
  params_get module "state" = PStr "start" →
  request db_client get_autonomous_data_warehouse (id_kwargs module) w
    = (inr (Some adw), w') →
  lifecycle_state adw ∉ ["AVAILABLE"; "STARTING"] →
  ∃ out st, run_module sdk db_client module w = (out, st)
    ∧ mutating_calls (trace st)
      = [(start_autonomous_data_warehouse, id_kwargs module)]
    ∧ ∃ tr, trace st = returned (Invoke get_autonomous_data_warehouse
                                   (id_kwargs module)) :: tr
        ∧ call_followed_by_wait
            (Invoke start_autonomous_data_warehouse (id_kwargs module))
            (id_kwargs module) (Some ["AVAILABLE"]) tr.
Proof.
  intros Hstate Hget Hin.
  rewrite run_start_or_stop by now left.
  rewrite (start_or_stop_found _ _ _ _ Hget), perform_start_run by exact Hstate.
  rewrite py_in_false by exact Hin.
  destruct (lifecycle_change _ _ _ _) as [r st1] eqn:Hrun.
  apply lifecycle_change_after_get in Hrun; [|reflexivity].
  destruct r; cbn [conclude]; eauto.
Qed.

(** C2.  Stop on an existing warehouse.  When the get reports it STOPPED or
    STOPPING, the get is the only remote call and the module exits with
    [changed = false] and the observed snapshot.  Otherwise exactly one
    mutating call is issued, the Stop on the identifier; when it returns it
    is followed by one wait whose acceptable states are exactly STOPPED. *)
Theorem stop_is_idempotent_or_stops (module : AnsibleModule) (w w' : W)
    (adw : AutonomousDataWarehouse) :
  params_get module "state" = PStr "stop" →
  request db_client get_autonomous_data_warehouse (id_kwargs module) w
    = (inr (Some adw), w') →
  ∃ out st, run_module sdk db_client module w = (out, st)
    ∧ (lifecycle_state adw ∈ ["STOPPED"; "STOPPING"] →
         out = exit_json {| changed := false;
                            autonomous_data_warehouse := to_dict sdk adw |}
         ∧ mutating_calls (trace st) = []
         ∧ trace st = [returned (Invoke get_autonomous_data_warehouse
                                   (id_kwargs module))])
    ∧ (lifecycle_state adw ∉ ["STOPPED"; "STOPPING"] →
         mutating_calls (trace st)
           = [(stop_autonomous_data_warehouse, id_kwargs module)]
         ∧ ∃ tr, trace st = returned (Invoke get_autonomous_data_warehouse
                                        (id_kwargs module)) :: tr
             ∧ call_followed_by_wait
                 (Invoke stop_autonomous_data_warehouse (id_kwargs module))
                 (id_kwargs module) (Some ["STOPPED"]) tr).
Proof.
  intros Hstate Hget.
  rewrite run_start_or_stop by now right.
  rewrite (start_or_stop_found _ _ _ _ Hget), perform_stop_run by exact Hstate.
  destruct (decide (lifecycle_state adw ∈ ["STOPPED"; "STOPPING"])) as [Hin|Hin].
  - rewrite py_in_true by exact Hin.
    eexists _, _. split; [reflexivity|]. split; [now cbn|]. now intros.
  - rewrite py_in_false by exact Hin.
    destruct (lifecycle_change _ _ _ _) as [r st1] eqn:Hrun.
    apply lifecycle_change_after_get in Hrun; [|reflexivity].
    destruct r; cbn [conclude]; eexists _, _;
      (split; [reflexivity|]); (split; [now intros|]); now intros.
Qed.

(** C10.  Start or stop with an identifier for which the get finds no
    warehouse: the module raises a [ClientError] whose message carries the
    identifier, and the get is the only remote call, so no mutating call is
    issued. *)
Theorem start_or_stop_not_found_raises (module : AnsibleModule) (w w' : W)
    (id : string) :
  params_get module "state" = PStr "start"
  ∨ params_get module "state" = PStr "stop" →
  params_get module "autonomous_data_warehouse_id" = PStr id →
  request db_client get_autonomous_data_warehouse (id_kwargs module) w
    = (inr None, w') →
  ∃ st, run_module sdk db_client module w
        = (uncaught (ClientError ("No Autonomous Data Warehouse with id "
                                    +:+ id +:+ " is found for update")), st)
    ∧ mutating_calls (trace st) = []
    ∧ trace st = [returned (Invoke get_autonomous_data_warehouse
                              (id_kwargs module))].
Proof.
  intros Hstate Hid Hget.
  rewrite run_start_or_stop by exact Hstate.
  rewrite (start_or_stop_not_found _ _ _ Hget), Hid.
  eexists. split; [reflexivity|]. now cbn.
Qed.

(** C4.  Start or stop without an identifier: the module makes no check of
    its own and issues the get with the absent identifier.  Whenever that
    get does not answer with a snapshot, the run ends in an uncaught
    exception, the get's own when the get raised, and not in [fail_json];
    no mutating call is issued. *)
Theorem start_or_stop_without_id (module : AnsibleModule) (w w' : W)
    (r : exn + option AutonomousDataWarehouse) :
  params_get module "state" = PStr "start"
  ∨ params_get module "state" = PStr "stop" →
  params_get module "autonomous_data_warehouse_id" = PNone →
  request db_client get_autonomous_data_warehouse
    {[ "autonomous_data_warehouse_id" := PNone ]} w = (r, w') →
  (∀ adw, r ≠ inr (Some adw)) →
  ∃ ex st, run_module sdk db_client module w = (uncaught ex, st)
    ∧ (∀ ex', r = inl ex' → ex = ex')
    ∧ mutating_calls (trace st) = []
    ∧ ∃ e, trace st = [{| call := Invoke get_autonomous_data_warehouse
                                    {[ "autonomous_data_warehouse_id" := PNone ]};
                          raised := e |}].
Proof.
  intros Hstate Hid Hget Hr.
  rewrite run_start_or_stop by exact Hstate.
  assert (Hkw : id_kwargs module = {[ "autonomous_data_warehouse_id" := PNone ]})
    by (unfold id_kwargs; now rewrite Hid).
  rewrite <- Hkw in *.
  destruct r as [ex|[adw|]].
  - rewrite (start_or_stop_get_raises _ _ _ _ Hget).
    exists ex. eexists. split; [reflexivity|].
    split; [now intros ? [= ->]|]. split; [now cbn|]. now eexists.
  - now destruct (Hr adw).
  - rewrite (start_or_stop_not_found _ _ _ Hget), Hid.
    eexists _, _. split; [reflexivity|].
    split; [now intros|]. split; [now cbn|]. now eexists.
Qed.

End start_stop.

(** ** Request models *)

Section models.
Context (module : AnsibleModule).

(** Storing the parameter of every name of [l] into the object [o]. *)
Lemma setattr_loop_lookup (l : list string) (o : kwargs) (a : string) :
  foldl (λ o a, setattr o a (params_get module a)) o l !! a =
    if bool_decide (a ∈ l) then Some (params_get module a) else o !! a.
Proof.
  revert o. induction l as [|b l IH]; intros o; cbn [foldl].
  - reflexivity.
  - rewrite IH. unfold setattr.
    destruct (decide (a = b)) as [->|Hab].
    + rewrite lookup_insert_eq.
      rewrite (bool_decide_eq_true_2 (b ∈ b :: l)) by apply list_elem_of_here.
      now destruct (bool_decide (b ∈ l)).
    + rewrite lookup_insert_ne by congruence.
      destruct (decide (a ∈ l)) as [Hal|Hal].
      * rewrite !bool_decide_eq_true_2; [reflexivity| |assumption].
        now apply list_elem_of_further.
      * rewrite !bool_decide_eq_false_2; [reflexivity| |assumption].
        rewrite elem_of_cons. intros [?|?]; congruence.
Qed.

(** The filled model holds, for each attribute of its map, the parameter of
    that name, and holds nothing else. *)
Lemma fill_model_lookup (attribute_map : list string) (a : string) :
  fill_model attribute_map module !! a =
    if bool_decide (a ∈ attribute_map) then Some (params_get module a) else None.
Proof.
  unfold fill_model. rewrite setattr_loop_lookup.
  destruct (bool_decide_reflect (a ∈ attribute_map)) as [H|H]; [reflexivity|].
  unfold new_model. apply not_elem_of_list_to_map_1.
  rewrite <- list_fmap_compose. intros Hin.
  apply list_elem_of_fmap in Hin as (b & -> & Hb). exact (H Hb).
Qed.

End models.

(** ** Present, absent and restore *)

Section present_absent_restore.
Context {W : Type} (sdk : Sdk) (db_client : DatabaseClient.t W).
Context (module : AnsibleModule).


Lemma bind_mret_run {A} (c : M W A) (st : St W) : (x ← c; mret x) st = c st.
Proof. rewrite bind_run. now destruct (c st) as [[a|ex|msg] st']. Qed.

(** The keyword arguments of the create request. *)
Definition create_kwargs : kwargs :=
  {[ "create_autonomous_data_warehouse_details" :=
       PDict (fill_model (CreateAutonomousDataWarehouseDetails sdk) module) ]}.

Lemma create_run (st : St W) :
  create_autonomous_data_warehouse sdk db_client module st =
    call_then_wait db_client
      (Invoke DatabaseClient.create_autonomous_data_warehouse create_kwargs)
      (request db_client DatabaseClient.create_autonomous_data_warehouse
         create_kwargs)
      (λ ref, {[ "autonomous_data_warehouse_id" := ref ]})
      None (changed_to sdk) st.
Proof.
  unfold create_autonomous_data_warehouse. rewrite bind_mret_run.
  unfold oci_utils.create_and_wait.
  apply (call_then_wait_run db_client _ _
           (λ ref, {[ "autonomous_data_warehouse_id" := ref ]})).
Qed.

(** The attributes of the update model that the caller supplied. *)
Definition update_payload : kwargs :=
  foldl (λ o a, setattr o a (params_get module a)) ∅
    (filter (λ a, bool_decide (a ∈ UpdateAutonomousDataWarehouseDetails sdk)
                  && negb (is_none (params_get module a)) = true)
            (UpdateAutonomousDataWarehouseDetails sdk)).

(** The keyword arguments of the update request. *)
Definition update_kwargs : kwargs :=
  <[ "update_autonomous_data_warehouse_details" := PDict update_payload ]>
    (id_kwargs module).

Lemma update_run (st : St W) :
  update_autonomous_data_warehouse sdk db_client module st =
    call_then_wait db_client
      (Invoke DatabaseClient.update_autonomous_data_warehouse update_kwargs)
      (request db_client DatabaseClient.update_autonomous_data_warehouse
         update_kwargs)
      (λ _, id_kwargs module) None (changed_to sdk) st.
Proof.
  unfold update_autonomous_data_warehouse. rewrite bind_mret_run.
  unfold oci_utils.check_and_update_resource.
  apply (call_then_wait_run db_client _ _ (λ _, id_kwargs module)).
Qed.

Lemma update_payload_lookup (a : string) :
  update_payload !! a =
    if bool_decide (a ∈ UpdateAutonomousDataWarehouseDetails sdk)
       && negb (is_none (params_get module a))
    then Some (params_get module a) else None.
Proof.
  unfold update_payload. rewrite setattr_loop_lookup, lookup_empty.
  destruct (bool_decide_reflect
    (a ∈ filter (λ a, bool_decide (a ∈ UpdateAutonomousDataWarehouseDetails sdk)
                      && negb (is_none (params_get module a)) = true)
                (UpdateAutonomousDataWarehouseDetails sdk))) as [H|H].
  - apply list_elem_of_filter in H as [-> _]. reflexivity.
  - destruct (_ && _) eqn:E; [|reflexivity].
    destruct H. apply list_elem_of_filter. split; [exact E|].
    apply andb_prop in E as [E _]. now apply bool_decide_eq_true in E.
Qed.

Lemma is_none_false (v : pyval) : is_none v = false ↔ v ≠ PNone.
Proof. destruct v; cbn; split; congruence. Qed.

(** What the [try] block of [create_or_update_autonomous_data_warehouse]
    runs. *)
Definition create_or_update_body : M W Result :=
  if truthy (params_get module "autonomous_data_warehouse_id") then
    update_autonomous_data_warehouse sdk db_client module
  else
    create_autonomous_data_warehouse sdk db_client module.

(** The two handlers: a service or client fault becomes [fail_json] with the
    fault's message, after one line of log; the calls issued stay as they
    are. *)
Lemma create_or_update_run (st : St W) :
  ∃ st', create_or_update_autonomous_data_warehouse sdk db_client module st =
      (match (create_or_update_body st).1 with
       | Throw ex => if is_fault ex then Halt (str ex) else Throw ex
       | r => r
       end, st')
    ∧ trace st' = trace (create_or_update_body st).2
    ∧ world st' = world (create_or_update_body st).2.
Proof.
  unfold create_or_update_autonomous_data_warehouse, create_or_update_body.
  rewrite bind_mret_run. unfold try_except.
  unfold oci_utils.check_and_create_resource.
  destruct (truthy _);
    match goal with |- context [?c st] => destruct (c st) as [[a|ex|msg] st1] end;
    try (eexists; split; [reflexivity|]; now split);
    destruct ex; eexists; (split; [reflexivity|]); now split.
Qed.

Lemma conclude_pair (r : res Result) (st : St W) :
  conclude (r, st) = ((conclude (r, st)).1, st).
Proof. now destruct r. Qed.

(** C8.  Present without an identifier: exactly one mutating call is
    issued, the Create, and the model it carries holds, for every attribute
    of the create model, the value the caller supplied under that name
    ([None] where the caller supplied none), and nothing else. *)
Theorem present_without_id_creates (w : W) :
  params_get module "state" = PStr "present" →
  truthy (params_get module "autonomous_data_warehouse_id") = false →
  ∃ out st details, run_module sdk db_client module w = (out, st)
    ∧ mutating_calls (trace st)
      = [(DatabaseClient.create_autonomous_data_warehouse,
          {[ "create_autonomous_data_warehouse_details" := PDict details ]})]
    ∧ (∀ a, a ∈ CreateAutonomousDataWarehouseDetails sdk →
            details !! a = Some (params_get module a))
    ∧ (∀ a, a ∉ CreateAutonomousDataWarehouseDetails sdk →
            details !! a = None).
Proof.
  intros Hstate Hid. rewrite run_present by exact Hstate.
  destruct (create_or_update_run (fresh w)) as (st & -> & Htr & _).
  unfold create_or_update_body in *. rewrite Hid, create_run in *.
  destruct (call_then_wait _ _ _ _ _ _ _) as [r st1] eqn:Hrun.
  apply call_then_wait_mutating in Hrun. cbn [fst snd] in *.
  eexists _, st,
    (fill_model (CreateAutonomousDataWarehouseDetails sdk) module).
  split; [apply conclude_pair|].
  split; [rewrite Htr, Hrun; reflexivity|].
  split; intros a Ha; rewrite fill_model_lookup.
  - now rewrite bool_decide_eq_true_2.
  - now rewrite bool_decide_eq_false_2.
Qed.

(** C7.  Present with an identifier: exactly one mutating call is issued,
    the Update on that identifier.  Its model holds only attributes of the
    update model that the caller supplied, each with the supplied value;
    every supplied one is in it, and an attribute the caller left unset is
    not. *)
Theorem present_with_id_updates (w : W) :
  params_get module "state" = PStr "present" →
  truthy (params_get module "autonomous_data_warehouse_id") = true →
  ∃ out st payload, run_module sdk db_client module w = (out, st)
    ∧ mutating_calls (trace st)
      = [(DatabaseClient.update_autonomous_data_warehouse,
          <[ "update_autonomous_data_warehouse_details" := PDict payload ]>
            (id_kwargs module))]
    ∧ (∀ a v, payload !! a = Some v →
              a ∈ UpdateAutonomousDataWarehouseDetails sdk
              ∧ v = params_get module a ∧ v ≠ PNone)
    ∧ (∀ a, a ∈ UpdateAutonomousDataWarehouseDetails sdk →
            params_get module a ≠ PNone →
            payload !! a = Some (params_get module a))
    ∧ (∀ a, params_get module a = PNone → payload !! a = None).
Proof.
  intros Hstate Hid. rewrite run_present by exact Hstate.
  destruct (create_or_update_run (fresh w)) as (st & -> & Htr & _).
  unfold create_or_update_body in *. rewrite Hid, update_run in *.
  destruct (call_then_wait _ _ _ _ _ _ _) as [r st1] eqn:Hrun.
  apply call_then_wait_mutating in Hrun. cbn [fst snd] in *.
  eexists _, st, update_payload. split; [apply conclude_pair|].
  split; [rewrite Htr, Hrun; reflexivity|].
  split; [|split]; intros a.
  - intros v. rewrite update_payload_lookup.
    destruct (bool_decide_reflect (a ∈ UpdateAutonomousDataWarehouseDetails sdk));
      cbn [andb]; [|discriminate].
    destruct (is_none (params_get module a)) eqn:E; cbn [negb]; [discriminate|].
    intros [= <-]. apply is_none_false in E. auto.
  - intros Ha Hv. rewrite update_payload_lookup.
    rewrite bool_decide_eq_true_2 by exact Ha.
    apply is_none_false in Hv. now rewrite Hv.
  - intros Hv. rewrite update_payload_lookup, Hv. cbn.
    now rewrite andb_false_r.
Qed.

Lemma ref_present_singleton (k : string) (v : pyval) :
  oci_utils.ref_present {[ k := v ]} = truthy v.
Proof.
  unfold oci_utils.ref_present. rewrite map_to_list_singleton. cbn.
  apply andb_true_r.
Qed.

Lemma delete_run (st : St W) :
  delete_autonomous_data_warehouse sdk db_client module st =
    if truthy (params_get module "autonomous_data_warehouse_id") then
      call_then_wait db_client
        (Invoke DatabaseClient.delete_autonomous_data_warehouse
           (id_kwargs module))
        (request db_client DatabaseClient.delete_autonomous_data_warehouse
           (id_kwargs module))
        (λ _, id_kwargs module) None (changed_to sdk) st
    else
      (Ret {| changed := false; autonomous_data_warehouse := PDict ∅ |}, st).
Proof.
  unfold delete_autonomous_data_warehouse. rewrite bind_mret_run.
  unfold oci_utils.delete_and_wait. rewrite ref_present_singleton.
  destruct (truthy _); [|reflexivity].
  apply (call_then_wait_run db_client _ _ (λ _, id_kwargs module)).
Qed.

(** C9.  Absent without an identifier: no remote call at all is issued, the
    world is left as it was, and the module exits with [changed = false]. *)
Theorem absent_without_id_is_noop (w : W) :
  params_get module "state" = PStr "absent" →
  truthy (params_get module "autonomous_data_warehouse_id") = false →
  ∃ result st, run_module sdk db_client module w = (exit_json result, st)
    ∧ changed result = false
    ∧ trace st = []
    ∧ world st = w.
Proof.
  intros Hstate Hid. rewrite run_absent by exact Hstate.
  rewrite delete_run, Hid. eexists _, _. split; [reflexivity|]. now cbn.
Qed.

(** The keyword arguments of the restore request. *)
Definition restore_kwargs : kwargs :=
  <[ "autonomous_data_warehouse_id" :=
       params_get module "autonomous_data_warehouse_id" ]>
    {[ "restore_autonomous_data_warehouse_details" :=
         PDict (fill_model (RestoreAutonomousDataWarehouseDetails sdk) module) ]}.

Lemma restore_run (st : St W) :
  restore_autonomous_data_warehouse sdk db_client module st =
    call_then_wait db_client
      (Invoke DatabaseClient.restore_autonomous_data_warehouse restore_kwargs)
      (request db_client DatabaseClient.restore_autonomous_data_warehouse
         restore_kwargs)
      (λ _, id_kwargs module) (Some ["AVAILABLE"; "FAILED"]) (changed_to sdk) st.
Proof.
  unfold restore_autonomous_data_warehouse. rewrite bind_mret_run.
  erewrite execute_function_and_wait_run by reflexivity.
  unfold dict_get. now rewrite lookup_insert_eq.
Qed.

(** C6.  Restore: the first remote call, with no get and no test before it,
    is the Restore, and it is the only mutating call.  It carries the
    identifier of the play and a model whose [timestamp] is the play's
    parameter of that name.  When it returns it is followed by one wait
    whose acceptable states are exactly AVAILABLE and FAILED, and the
    snapshot that wait ends with is the one the module exits with. *)
Theorem restore_restores_and_waits (w : W) :
  params_get module "state" = PStr "restore" →
  "timestamp" ∈ RestoreAutonomousDataWarehouseDetails sdk →
  ∃ out st details,
    let kw : kwargs :=
      <[ "autonomous_data_warehouse_id" :=
           params_get module "autonomous_data_warehouse_id" ]>
        {[ "restore_autonomous_data_warehouse_details" := PDict details ]} in
    run_module sdk db_client module w = (out, st)
    ∧ details !! "timestamp" = Some (params_get module "timestamp")
    ∧ mutating_calls (trace st)
      = [(DatabaseClient.restore_autonomous_data_warehouse, kw)]
    ∧ call_followed_by_wait
        (Invoke DatabaseClient.restore_autonomous_data_warehouse kw)
        (id_kwargs module) (Some ["AVAILABLE"; "FAILED"]) (trace st)
    ∧ (∀ w1 w2 adw,
         request db_client DatabaseClient.restore_autonomous_data_warehouse
           kw w = (inr tt, w1) →
         wait_for db_client (id_kwargs module) (Some ["AVAILABLE"; "FAILED"]) w1
           = (inr adw, w2) →
         out = exit_json {| changed := true;
                            autonomous_data_warehouse := to_dict sdk adw |}).
Proof.
  intros Hstate Hts. rewrite run_restore by exact Hstate.
  rewrite restore_run.
  destruct (call_then_wait _ _ _ _ _ _ _) as [r st] eqn:Hrun.
  exists (conclude (r, st)).1, st,
    (fill_model (RestoreAutonomousDataWarehouseDetails sdk) module).
  cbv zeta. split; [apply conclude_pair|].
  split; [rewrite fill_model_lookup; now rewrite bool_decide_eq_true_2|].
  split; [apply call_then_wait_mutating in Hrun; now rewrite Hrun|].
  split.
  - apply call_then_wait_trace in Hrun as (tr & -> & Htr). exact Htr.
  - intros w1 w2 adw H1 H2. unfold call_then_wait in Hrun.
    cbn [world fresh] in Hrun. fold restore_kwargs in H1.
    rewrite H1, H2 in Hrun. now inversion Hrun.
Qed.

End present_absent_restore.

(** ** Faults *)

Section faults.
Context {W : Type} (sdk : Sdk) (db_client : DatabaseClient.t W).
Context (module : AnsibleModule) (w : W).



End faults.

(** ** The module on the in-memory control plane *)



(** Start without an identifier on a client whose get finds nothing: the
    message of the intended [ClientError] is built by concatenating the
    identifier, which is [None], so what escapes is a [TypeError]. *)
Example start_without_id_not_found :
  ∃ msg,
    (run_module Cloud.sdk (Cloud.canned None) (Cloud.play "start" PNone ∅) tt).1
    = uncaught (TypeError msg).
Proof. eexists. reflexivity. Qed.

(** The time-out of a wait under [present]: it is a [ClientError] by class,
    so the second handler logs it and turns it into [fail_json]. *)
Example present_timeout_is_handled :
  let r := run_module Cloud.sdk
             {| DatabaseClient.request := request (Cloud.canned (Some Cloud.available));
                DatabaseClient.wait_for _ _ w :=
                  (inl (MaximumWaitTimeExceeded
                          "Maximum wait time has been exceeded"), w) |}
             (Cloud.play "present" (PStr "x") {[ "cpu_core_count" := PInt 4 ]})
             tt in
  r.1 = failed "Maximum wait time has been exceeded"
  ∧ log r.2 = ["Unable to launch/update autonomous data warehouse due to: "
               +:+ "Maximum wait time has been exceeded"].
Proof. cbv zeta. split; vm_compute; reflexivity. Qed.

(** The scenario of a restore to a point in time: the warehouse is restored
    and the run reports the snapshot the wait ended with. *)
Example restore_scenario :
  (run_module Cloud.sdk Cloud.client
     (Cloud.play "restore" (PStr "x")
        {[ "timestamp" := PStr "2018-03-23T00:59:07.032Z" ]})
     {[ "x" := Cloud.stopped ]}).1
  = exit_json {| changed := true;
                 autonomous_data_warehouse :=
                   to_dict Cloud.sdk
                     {| lifecycle_state := "AVAILABLE";
                        attributes := attributes Cloud.stopped |} |}.
Proof. vm_compute. reflexivity. Qed.

Lemma start_on_running_is_noop_witness :
  ∃ st, run_module Cloud.sdk Cloud.client (Cloud.play "start" (PStr "x") ∅)
          {[ "x" := Cloud.available ]}
        = (exit_json {| changed := false;
                        autonomous_data_warehouse :=
                          to_dict Cloud.sdk Cloud.available |}, st)
    ∧ mutating_calls (trace st) = []
    ∧ trace st = [returned (Invoke DatabaseClient.get_autonomous_data_warehouse
                              (id_kwargs (Cloud.play "start" (PStr "x") ∅)))]
    ∧ world st = {[ "x" := Cloud.available ]}.
Proof.
  apply (start_on_running_is_noop Cloud.sdk Cloud.client
           (Cloud.play "start" (PStr "x") ∅) {[ "x" := Cloud.available ]}
           {[ "x" := Cloud.available ]} Cloud.available).
  - reflexivity.
  - vm_compute. reflexivity.
  - apply list_elem_of_here.
Defined.

Lemma stop_is_idempotent_or_stops_witness :
  ∃ out st,
    run_module Cloud.sdk Cloud.client (Cloud.play "stop" (PStr "x") ∅)
      {[ "x" := Cloud.available ]} = (out, st)
    ∧ (lifecycle_state Cloud.available ∈ ["STOPPED"; "STOPPING"] →
         out = exit_json {| changed := false;
                            autonomous_data_warehouse :=
                              to_dict Cloud.sdk Cloud.available |}
         ∧ mutating_calls (trace st) = []
         ∧ trace st
           = [returned (Invoke DatabaseClient.get_autonomous_data_warehouse
                          (id_kwargs (Cloud.play "stop" (PStr "x") ∅)))])
    ∧ (lifecycle_state Cloud.available ∉ ["STOPPED"; "STOPPING"] →
         mutating_calls (trace st)
           = [(DatabaseClient.stop_autonomous_data_warehouse,
               id_kwargs (Cloud.play "stop" (PStr "x") ∅))]
         ∧ ∃ tr, trace st
                 = returned (Invoke DatabaseClient.get_autonomous_data_warehouse
                               (id_kwargs (Cloud.play "stop" (PStr "x") ∅))) :: tr
             ∧ call_followed_by_wait
                 (Invoke DatabaseClient.stop_autonomous_data_warehouse
                    (id_kwargs (Cloud.play "stop" (PStr "x") ∅)))
                 (id_kwargs (Cloud.play "stop" (PStr "x") ∅))
                 (Some ["STOPPED"]) tr).
Proof.
  apply (stop_is_idempotent_or_stops Cloud.sdk Cloud.client
           (Cloud.play "stop" (PStr "x") ∅) {[ "x" := Cloud.available ]}
           {[ "x" := Cloud.available ]} Cloud.available).
  - reflexivity.
  - vm_compute. reflexivity.
Defined.

Lemma start_elsewhere_starts_and_waits_witness :
  ∃ out st,
    run_module Cloud.sdk Cloud.client (Cloud.play "start" (PStr "x") ∅)
      {[ "x" := Cloud.stopped ]} = (out, st)
    ∧ mutating_calls (trace st)
      = [(DatabaseClient.start_autonomous_data_warehouse,
          id_kwargs (Cloud.play "start" (PStr "x") ∅))]
    ∧ ∃ tr, trace st
            = returned (Invoke DatabaseClient.get_autonomous_data_warehouse
                          (id_kwargs (Cloud.play "start" (PStr "x") ∅))) :: tr
        ∧ call_followed_by_wait
            (Invoke DatabaseClient.start_autonomous_data_warehouse
               (id_kwargs (Cloud.play "start" (PStr "x") ∅)))
            (id_kwargs (Cloud.play "start" (PStr "x") ∅))
            (Some ["AVAILABLE"]) tr.
Proof.
  apply (start_elsewhere_starts_and_waits Cloud.sdk Cloud.client
           (Cloud.play "start" (PStr "x") ∅) {[ "x" := Cloud.stopped ]}
           {[ "x" := Cloud.stopped ]} Cloud.stopped).
  - reflexivity.
  - vm_compute. reflexivity.
  - intros H. apply elem_of_cons in H as [H|H]; [discriminate H|].
    apply elem_of_cons in H as [H|H]; [discriminate H|].
    now apply elem_of_nil in H.
Defined.

Lemma start_or_stop_not_found_raises_witness :
  ∃ st, run_module Cloud.sdk Cloud.client (Cloud.play "start" (PStr "x") ∅) ∅
        = (uncaught (ClientError ("No Autonomous Data Warehouse with id "
                                    +:+ "x" +:+ " is found for update")), st)
    ∧ mutating_calls (trace st) = []
    ∧ trace st = [returned (Invoke DatabaseClient.get_autonomous_data_warehouse
                              (id_kwargs (Cloud.play "start" (PStr "x") ∅)))].
Proof.
  apply (start_or_stop_not_found_raises Cloud.sdk Cloud.client
           (Cloud.play "start" (PStr "x") ∅) ∅ ∅ "x").
  - left. reflexivity.
  - reflexivity.
  - vm_compute. reflexivity.
Defined.

Lemma start_or_stop_without_id_witness :
  ∃ ex st, run_module Cloud.sdk Cloud.client (Cloud.play "stop" PNone ∅) ∅
           = (uncaught ex, st)
    ∧ (∀ ex',
         inl Cloud.missing_id
           = (inl ex' : exn + option AutonomousDataWarehouse) → ex = ex')
    ∧ mutating_calls (trace st) = []
    ∧ ∃ e, trace st
           = [{| call := Invoke DatabaseClient.get_autonomous_data_warehouse
                           {[ "autonomous_data_warehouse_id" := PNone ]};
                 raised := e |}].
Proof.
  apply (start_or_stop_without_id Cloud.sdk Cloud.client
           (Cloud.play "stop" PNone ∅) ∅ ∅).
  - right. reflexivity.
  - reflexivity.
  - vm_compute. reflexivity.
  - intros adw H. discriminate H.
Defined.


Lemma restore_restores_and_waits_witness :
  let module := Cloud.play "restore" (PStr "x")
                  {[ "timestamp" := PStr "2018-03-23T00:59:07.032Z" ]} in
  ∃ out st details,
    let kw : kwargs :=
      <[ "autonomous_data_warehouse_id" :=
           params_get module "autonomous_data_warehouse_id" ]>
        {[ "restore_autonomous_data_warehouse_details" := PDict details ]} in
    run_module Cloud.sdk Cloud.client module {[ "x" := Cloud.available ]}
      = (out, st)
    ∧ details !! "timestamp" = Some (params_get module "timestamp")
    ∧ mutating_calls (trace st)
      = [(DatabaseClient.restore_autonomous_data_warehouse, kw)]
    ∧ call_followed_by_wait
        (Invoke DatabaseClient.restore_autonomous_data_warehouse kw)
        (id_kwargs module) (Some ["AVAILABLE"; "FAILED"]) (trace st)
    ∧ (∀ w1 w2 adw,
         request Cloud.client DatabaseClient.restore_autonomous_data_warehouse
           kw {[ "x" := Cloud.available ]} = (inr tt, w1) →
         wait_for Cloud.client (id_kwargs module)
           (Some ["AVAILABLE"; "FAILED"]) w1 = (inr adw, w2) →
         out = exit_json {| changed := true;
                            autonomous_data_warehouse := to_dict Cloud.sdk adw |}).
Proof.
  apply (restore_restores_and_waits Cloud.sdk Cloud.client
           (Cloud.play "restore" (PStr "x")
              {[ "timestamp" := PStr "2018-03-23T00:59:07.032Z" ]})
           {[ "x" := Cloud.available ]}).
  - reflexivity.
  - apply list_elem_of_here.
Defined.

Lemma present_with_id_updates_witness :
  let module := Cloud.play "present" (PStr "x") {[ "cpu_core_count" := PInt 4 ]} in
  ∃ out st payload,
    run_module Cloud.sdk Cloud.client module {[ "x" := Cloud.available ]}
      = (out, st)
    ∧ mutating_calls (trace st)
      = [(DatabaseClient.update_autonomous_data_warehouse,
          <[ "update_autonomous_data_warehouse_details" := PDict payload ]>
            (id_kwargs module))]
    ∧ (∀ a v, payload !! a = Some v →
              a ∈ UpdateAutonomousDataWarehouseDetails Cloud.sdk
              ∧ v = params_get module a ∧ v ≠ PNone)
    ∧ (∀ a, a ∈ UpdateAutonomousDataWarehouseDetails Cloud.sdk →
            params_get module a ≠ PNone →
            payload !! a = Some (params_get module a))
    ∧ (∀ a, params_get module a = PNone → payload !! a = None).
Proof.
  apply (present_with_id_updates Cloud.sdk Cloud.client
           (Cloud.play "present" (PStr "x") {[ "cpu_core_count" := PInt 4 ]})
           {[ "x" := Cloud.available ]}).
  - reflexivity.
  - reflexivity.
Defined.

Lemma present_without_id_creates_witness :
  let module := Cloud.play "present" PNone {[ "db_name" := PStr "autonomousdb" ]} in
  ∃ out st details,
    run_module Cloud.sdk Cloud.client module ∅ = (out, st)
    ∧ mutating_calls (trace st)
      = [(DatabaseClient.create_autonomous_data_warehouse,
          {[ "create_autonomous_data_warehouse_details" := PDict details ]})]
    ∧ (∀ a, a ∈ CreateAutonomousDataWarehouseDetails Cloud.sdk →
            details !! a = Some (params_get module a))
    ∧ (∀ a, a ∉ CreateAutonomousDataWarehouseDetails Cloud.sdk →
            details !! a = None).
Proof.
  apply (present_without_id_creates Cloud.sdk Cloud.client
           (Cloud.play "present" PNone {[ "db_name" := PStr "autonomousdb" ]}) ∅).
  - reflexivity.
  - reflexivity.
Defined.

Lemma absent_without_id_is_noop_witness :
  ∃ result st,
    run_module Cloud.sdk Cloud.client (Cloud.play "absent" PNone ∅)
      {[ "x" := Cloud.available ]} = (exit_json result, st)
    ∧ changed result = false
    ∧ trace st = []
    ∧ world st = {[ "x" := Cloud.available ]}.
Proof.
  apply (absent_without_id_is_noop Cloud.sdk Cloud.client
           (Cloud.play "absent" PNone ∅) {[ "x" := Cloud.available ]}).
  - reflexivity.
  - reflexivity.
Defined.

(** * The module as a whole *)

(** ** Every run, by cases *)

Lemma py_eq_str_true (v : pyval) (s : string) :
  py_eq_str v s = true → v = PStr s.
Proof.
  destruct v; cbn; try discriminate. intros H.
  now apply String.eqb_eq in H as ->.
Qed.

Section every_run.
Context {W : Type} (sdk : Sdk) (db_client : DatabaseClient.t W).
Context (module : AnsibleModule).

(** The three outcomes of a call followed by a wait. *)
Lemma call_then_wait_cases {A} c (op : W → (exn + A) * W) ref states report
    (st : St W) r st' :
  call_then_wait db_client c op ref states report st = (r, st') →
  log st' = log st
  ∧ ((∃ ex, r = Throw ex ∧ trace st' = trace st ++ [raising c ex])
     ∨ (∃ x ex, r = Throw ex
          ∧ trace st' = trace st ++ [returned c;
                                     raising (WaitFor (ref x) states) ex])
     ∨ (∃ x a, r = Ret (report a)
          ∧ trace st' = trace st ++ [returned c;
                                     returned (WaitFor (ref x) states)])).
Proof.
  unfold call_then_wait. intros H.
  destruct (op (world st)) as [[ex|x] w1].
  - inversion H; subst. split; [reflexivity|]. left. now exists ex.
  - destruct (wait_for db_client (ref x) states w1) as [[ex|a] w2];
      inversion H; subst; cbn [trace log]; rewrite <- app_assoc;
      (split; [reflexivity|]); right; [left|right]; eexists x, _; now split.
Qed.

(** The request that the state of the play asks for, with its keyword
    arguments. *)
Definition request_for (m : Method) (kw : kwargs) : Prop :=
  let state := params_get module "state" in
  let id := params_get module "autonomous_data_warehouse_id" in
  match m with
  | DatabaseClient.create_autonomous_data_warehouse =>
      state = PStr "present" ∧ truthy id = false
      ∧ kw = create_kwargs sdk module
  | DatabaseClient.update_autonomous_data_warehouse =>
      state = PStr "present" ∧ truthy id = true
      ∧ kw = update_kwargs sdk module
  | DatabaseClient.delete_autonomous_data_warehouse =>
      state = PStr "absent" ∧ truthy id = true ∧ kw = id_kwargs module
  | DatabaseClient.restore_autonomous_data_warehouse =>
      state = PStr "restore" ∧ kw = restore_kwargs sdk module
  | DatabaseClient.start_autonomous_data_warehouse =>
      state = PStr "start" ∧ kw = id_kwargs module
  | DatabaseClient.stop_autonomous_data_warehouse =>
      state = PStr "stop" ∧ kw = id_kwargs module
  | _ => False
  end.

(** The calls a request comes after: the get, for a start or a stop. *)
Definition observation (m : Method) : list Event :=
  match m with
  | DatabaseClient.start_autonomous_data_warehouse
  | DatabaseClient.stop_autonomous_data_warehouse =>
      [returned (Invoke DatabaseClient.get_autonomous_data_warehouse
                   (id_kwargs module))]
  | _ => []
  end.

(** The line each handler of [create_or_update_autonomous_data_warehouse]
    logs. *)
Definition log_line (ex : exn) : string :=
  match ex with
  | ServiceError _ message =>
      "Unable to create/update autonomous data warehouse due to: " +:+ message
  | _ =>
      "Unable to launch/update autonomous data warehouse due to: " +:+ str ex
  end.

(** Whether an exception raised by a remote call meets a handler: only
    under [present], and only a [ServiceError] or a [ClientError], by
    class. *)
Definition handled (ex : exn) : bool :=
  py_eq_str (params_get module "state") "present" && is_fault ex.

(** How an exception raised by a remote call leaves the process. *)
Definition surface (ex : exn) : Outcome :=
  if handled ex then failed (str ex) else uncaught ex.

(** What the process has logged when it ends on that exception. *)
Definition logged (ex : exn) : list string :=
  if handled ex then [log_line ex] else [].

(** The state is none of present, absent and restore: [main] takes its last
    branch. *)
Definition last_branch : Prop :=
  py_eq_str (params_get module "state") "present" = false
  ∧ py_eq_str (params_get module "state") "absent" = false
  ∧ py_eq_str (params_get module "state") "restore" = false.

(** The seven ways a run ends. *)
Inductive summary : Outcome → St W → Prop :=
| nothing_issued res st :
    params_get module "state" = PStr "absent" →
    truthy (params_get module "autonomous_data_warehouse_id") = false →
    changed res = false → trace st = [] → log st = [] →
    summary (exit_json res) st
| get_raised ex st :
    last_branch →
    trace st = [raising (Invoke DatabaseClient.get_autonomous_data_warehouse
                           (id_kwargs module)) ex] →
    log st = [] →
    summary (uncaught ex) st
| get_refused ex st :
    last_branch →
    trace st = [returned (Invoke DatabaseClient.get_autonomous_data_warehouse
                            (id_kwargs module))] →
    log st = [] →
    summary (uncaught ex) st
| get_sufficed adw st :
    last_branch →
    trace st = [returned (Invoke DatabaseClient.get_autonomous_data_warehouse
                            (id_kwargs module))] →
    log st = [] →
    summary (exit_json (unchanged sdk adw)) st
| request_raised m kw ex st :
    request_for m kw →
    trace st = observation m ++ [raising (Invoke m kw) ex] →
    log st = logged ex →
    summary (surface ex) st
| wait_raised m kw ref states ex st :
    request_for m kw →
    trace st = observation m ++ [returned (Invoke m kw);
                                 raising (WaitFor ref states) ex] →
    log st = logged ex →
    summary (surface ex) st
| change_done m kw ref states adw st :
    request_for m kw →
    trace st = observation m ++ [returned (Invoke m kw);
                                 returned (WaitFor ref states)] →
    log st = [] →
    summary (exit_json (changed_to sdk adw)) st.

End every_run.

Section every_run_summary.
Context {W : Type} (sdk : Sdk) (db_client : DatabaseClient.t W).
Context (module : AnsibleModule) (w : W).

(** [main] without the test of the import, as one conditional. *)
Lemma run_dispatch :
  run_module sdk db_client module w =
    conclude
      ((if py_eq_str (params_get module "state") "present" then
          create_or_update_autonomous_data_warehouse sdk db_client module
        else if py_eq_str (params_get module "state") "absent" then
          delete_autonomous_data_warehouse sdk db_client module
        else if py_eq_str (params_get module "state") "restore" then
          restore_autonomous_data_warehouse sdk db_client module
        else
          start_or_stop_autonomous_data_warehouse sdk db_client module)
         (fresh w)).
Proof. reflexivity. Qed.

(** The [try] statement of [create_or_update_autonomous_data_warehouse]: a
    service or client fault is logged and turned into [fail_json]; anything
    else passes. *)
Lemma create_or_update_handled (st : St W) :
  create_or_update_autonomous_data_warehouse sdk db_client module st =
    match create_or_update_body sdk db_client module st with
    | (Throw ex, st1) =>
        if is_fault ex then
          (Halt (str ex),
           {| world := world st1; trace := trace st1;
              log := log st1 ++ [log_line ex] |})
        else (Throw ex, st1)
    | rs => rs
    end.
Proof.
  unfold create_or_update_autonomous_data_warehouse, create_or_update_body.
  rewrite bind_mret_run. unfold try_except.
  unfold oci_utils.check_and_create_resource.
  destruct (truthy _);
    match goal with |- context [?c st] => destruct (c st) as [[a|ex|msg] st1] end;
    try reflexivity; now destruct ex.
Qed.

(** The run of [perform_start_or_stop] under a state that is neither start
    nor stop: no lifecycle function is chosen and the call of [None]
    raises. *)
Lemma perform_neither_run adw id (st : St W) :
  py_eq_str (params_get module "state") "start" = false →
  py_eq_str (params_get module "state") "stop" = false →
  perform_start_or_stop sdk db_client adw id module st =
    (Throw (TypeError "'NoneType' object is not callable"), st).
Proof.
  intros H1 H2. unfold perform_start_or_stop. now rewrite H1, H2.
Qed.

Lemma run_summary :
  summary sdk module (run_module sdk db_client module w).1
    (run_module sdk db_client module w).2.
Proof.
  rewrite run_dispatch.
  destruct (py_eq_str (params_get module "state") "present") eqn:Hp;
    [|destruct (py_eq_str (params_get module "state") "absent") eqn:Ha;
      [|destruct (py_eq_str (params_get module "state") "restore") eqn:Hr]].
  - (* present *)
    pose proof (py_eq_str_true _ _ Hp) as Hs.
    rewrite create_or_update_handled. unfold create_or_update_body.
    assert (Hsurface : ∀ ex (st1 : St W), log st1 = [] →
      conclude
        (if is_fault ex then
           (Halt (str ex),
            {| world := world st1; trace := trace st1;
               log := log st1 ++ [log_line ex] |})
         else (Throw ex, st1))
      = (surface module ex,
         {| world := world st1; trace := trace st1;
            log := logged module ex |})).
    { intros ex [w1 tr1 lg1] Hlog. cbn in Hlog. subst lg1.
      unfold surface, logged, handled. rewrite Hp.
      now destruct (is_fault ex). }
    destruct (truthy (params_get module "autonomous_data_warehouse_id")) eqn:Hid.
    + rewrite update_run.
      destruct (call_then_wait _ _ _ _ _ _ _) as [r st1] eqn:Hrun.
      apply call_then_wait_cases in Hrun
        as [Hlog [(ex & -> & Htr)|[(x & ex & -> & Htr)|(x & a & -> & Htr)]]];
        cbn [fresh trace log] in Htr, Hlog.
      * rewrite Hsurface by exact Hlog.
        eapply (request_raised _ _ DatabaseClient.update_autonomous_data_warehouse);
          [repeat split; eassumption|exact Htr|reflexivity].
      * rewrite Hsurface by exact Hlog.
        eapply (wait_raised _ _ DatabaseClient.update_autonomous_data_warehouse);
          [repeat split; eassumption|exact Htr|reflexivity].
      * eapply (change_done _ _ DatabaseClient.update_autonomous_data_warehouse);
          [repeat split; eassumption|exact Htr|exact Hlog].
    + rewrite create_run.
      destruct (call_then_wait _ _ _ _ _ _ _) as [r st1] eqn:Hrun.
      apply call_then_wait_cases in Hrun
        as [Hlog [(ex & -> & Htr)|[(x & ex & -> & Htr)|(x & a & -> & Htr)]]];
        cbn [fresh trace log] in Htr, Hlog.
      * rewrite Hsurface by exact Hlog.
        eapply (request_raised _ _ DatabaseClient.create_autonomous_data_warehouse);
          [repeat split; eassumption|exact Htr|reflexivity].
      * rewrite Hsurface by exact Hlog.
        eapply (wait_raised _ _ DatabaseClient.create_autonomous_data_warehouse);
          [repeat split; eassumption|exact Htr|reflexivity].
      * eapply (change_done _ _ DatabaseClient.create_autonomous_data_warehouse);
          [repeat split; eassumption|exact Htr|exact Hlog].
  - (* absent *)
    pose proof (py_eq_str_true _ _ Ha) as Hs.
    rewrite delete_run.
    destruct (truthy (params_get module "autonomous_data_warehouse_id")) eqn:Hid.
    + destruct (call_then_wait _ _ _ _ _ _ _) as [r st1] eqn:Hrun.
      apply call_then_wait_cases in Hrun
        as [Hlog [(ex & -> & Htr)|[(x & ex & -> & Htr)|(x & a & -> & Htr)]]];
        cbn [fresh trace log conclude fst snd] in *.
      1, 2: replace (uncaught ex) with (surface module ex)
              by (unfold surface, handled; now rewrite Hp).
      * eapply (request_raised _ _ DatabaseClient.delete_autonomous_data_warehouse);
          [repeat split; eassumption|exact Htr|].
        unfold logged, handled. now rewrite Hp.
      * eapply (wait_raised _ _ DatabaseClient.delete_autonomous_data_warehouse);
          [repeat split; eassumption|exact Htr|].
        unfold logged, handled. now rewrite Hp.
      * eapply (change_done _ _ DatabaseClient.delete_autonomous_data_warehouse);
          [repeat split; eassumption|exact Htr|exact Hlog].
    + cbn. now apply nothing_issued.
  - (* restore *)
    pose proof (py_eq_str_true _ _ Hr) as Hs.
    rewrite restore_run.
    destruct (call_then_wait _ _ _ _ _ _ _) as [r st1] eqn:Hrun.
    apply call_then_wait_cases in Hrun
      as [Hlog [(ex & -> & Htr)|[(x & ex & -> & Htr)|(x & a & -> & Htr)]]];
      cbn [fresh trace log conclude fst snd] in *.
    1, 2: replace (uncaught ex) with (surface module ex)
            by (unfold surface, handled; now rewrite Hp).
    + eapply (request_raised _ _ DatabaseClient.restore_autonomous_data_warehouse);
        [repeat split; eassumption|exact Htr|].
      unfold logged, handled. now rewrite Hp.
    + eapply (wait_raised _ _ DatabaseClient.restore_autonomous_data_warehouse);
        [repeat split; eassumption|exact Htr|].
      unfold logged, handled. now rewrite Hp.
    + eapply (change_done _ _ DatabaseClient.restore_autonomous_data_warehouse);
        [repeat split; eassumption|exact Htr|exact Hlog].
  - (* start, stop *)
    assert (Hlast : last_branch module) by (now repeat split).
    destruct (request db_client DatabaseClient.get_autonomous_data_warehouse
                (id_kwargs module) w) as [[ex|[adw|]] w'] eqn:Hget.
    + rewrite (start_or_stop_get_raises _ _ _ _ _ _ Hget). cbn.
      now apply get_raised.
    + rewrite (start_or_stop_found _ _ _ _ _ _ Hget).
      destruct (py_eq_str (params_get module "state") "start") eqn:Hstart;
        [|destruct (py_eq_str (params_get module "state") "stop") eqn:Hstop].
      * pose proof (py_eq_str_true _ _ Hstart) as Hs.
        rewrite perform_start_run by exact Hs.
        destruct (py_in _ _); [cbn; now apply get_sufficed|].
        unfold lifecycle_change.
        destruct (call_then_wait _ _ _ _ _ _ _) as [r st1] eqn:Hrun.
        apply call_then_wait_cases in Hrun
          as [Hlog [(ex & -> & Htr)|[(x & ex & -> & Htr)|(x & a & -> & Htr)]]];
          cbn [after_get trace log conclude fst snd] in *.
        1, 2: replace (uncaught ex) with (surface module ex)
                by (unfold surface, handled; now rewrite Hp).
        -- eapply (request_raised _ _ DatabaseClient.start_autonomous_data_warehouse);
             [now split|exact Htr|].
           unfold logged, handled. now rewrite Hp.
        -- eapply (wait_raised _ _ DatabaseClient.start_autonomous_data_warehouse);
             [now split|exact Htr|].
           unfold logged, handled. now rewrite Hp.
        -- eapply (change_done _ _ DatabaseClient.start_autonomous_data_warehouse);
             [now split|exact Htr|exact Hlog].
      * pose proof (py_eq_str_true _ _ Hstop) as Hs.
        rewrite perform_stop_run by exact Hs.
        destruct (py_in _ _); [cbn; now apply get_sufficed|].
        unfold lifecycle_change.
        destruct (call_then_wait _ _ _ _ _ _ _) as [r st1] eqn:Hrun.
        apply call_then_wait_cases in Hrun
          as [Hlog [(ex & -> & Htr)|[(x & ex & -> & Htr)|(x & a & -> & Htr)]]];
          cbn [after_get trace log conclude fst snd] in *.
        1, 2: replace (uncaught ex) with (surface module ex)
                by (unfold surface, handled; now rewrite Hp).
        -- eapply (request_raised _ _ DatabaseClient.stop_autonomous_data_warehouse);
             [now split|exact Htr|].
           unfold logged, handled. now rewrite Hp.
        -- eapply (wait_raised _ _ DatabaseClient.stop_autonomous_data_warehouse);
             [now split|exact Htr|].
           unfold logged, handled. now rewrite Hp.
        -- eapply (change_done _ _ DatabaseClient.stop_autonomous_data_warehouse);
             [now split|exact Htr|exact Hlog].
      * rewrite perform_neither_run by assumption. cbn.
        now apply get_refused.
    + rewrite (start_or_stop_not_found _ _ _ _ _ Hget), bind_run.
      destruct (params_get module "autonomous_data_warehouse_id");
        cbn; now apply get_refused.
Qed.

End every_run_summary.

(** ** What every run keeps *)

(** Whether a mutating request names the warehouse of the play: a Create
    carries no identifier, every other request the play's. *)
Definition targets_the_play (module : AnsibleModule)
    (p : Method * kwargs) : Prop :=
  match p.1 with
  | DatabaseClient.create_autonomous_data_warehouse =>
      p.2 !! "autonomous_data_warehouse_id" = None
  | _ =>
      p.2 !! "autonomous_data_warehouse_id"
      = Some (params_get module "autonomous_data_warehouse_id")
  end.

(** The exception the last call of a trace raised, if it raised. *)
Definition last_raised (tr : list Event) : option exn :=
  match last tr with
  | Some ev => raised ev
  | None => None
  end.

Section invariants.
Context {W : Type} (sdk : Sdk) (db_client : DatabaseClient.t W).
Context (module : AnsibleModule) (w : W).

(** X1.  When the SDK could not be imported, [main] leaves through
    [fail_json] with its fixed message before anything else: no remote call
    is issued, nothing is logged and the world is untouched, whatever the
    state of the play. *)
Theorem without_sdk_nothing_runs (st : St W) :
  main sdk false db_client module st
  = (failed "oci python sdk required for this module", st).
Proof. unfold main. now rewrite bind_run. Qed.

(** The mutating requests of a run that got as far as the request [m]. *)
Lemma mutating_calls_of_change (m : Method) (kw : kwargs) e tail :
  request_for sdk module m kw →
  tail = [] ∨ (∃ ref states e', tail = [{| call := WaitFor ref states;
                                            raised := e' |}]) →
  mutating_calls (observation module m
                    ++ {| call := Invoke m kw; raised := e |} :: tail)
  = [(m, kw)].
Proof.
  intros Hm Htail. rewrite mutating_calls_app.
  destruct m; try contradiction; cbn;
    destruct Htail as [->|(ref & states & e' & ->)]; reflexivity.
Qed.

(** X2.  Whatever the client answers, a run issues at most one mutating
    request, and it is the one the state of the play asks for: Create or
    Update under present, by the identifier being absent or supplied, Delete
    under absent, Restore under restore, Start under start and Stop under
    stop. *)
Theorem at_most_one_mutating_request :
  let st := (run_module sdk db_client module w).2 in
  mutating_calls (trace st) = []
  ∨ ∃ m kw, mutating_calls (trace st) = [(m, kw)]
            ∧ request_for sdk module m kw.
Proof.
  cbv zeta. pose proof (run_summary sdk db_client module w) as H.
  destruct (run_module sdk db_client module w) as [out st].
  cbn [fst snd] in *.
  destruct H as [res st ? ? ? Htr ?|ex st ? Htr ?|ex st ? Htr ?|adw st ? Htr ?
                |m kw ex st Hm Htr ?|m kw ref states ex st Hm Htr ?
                |m kw ref states adw st Hm Htr ?]; rewrite Htr.
  1-4: now left.
  all: right; exists m, kw; split; [|exact Hm];
    apply mutating_calls_of_change; eauto.
Qed.

Lemma request_for_targets (m : Method) (kw : kwargs) :
  request_for sdk module m kw → targets_the_play module (m, kw).
Proof.
  unfold targets_the_play.
  destruct m; cbn; try contradiction; intros H; destruct_and!; subst kw.
  - unfold create_kwargs. now rewrite lookup_singleton_ne.
  - unfold update_kwargs, id_kwargs.
    rewrite lookup_insert_ne by discriminate. apply lookup_singleton_eq.
  - apply lookup_singleton_eq.
  - unfold restore_kwargs. apply lookup_insert_eq.
  - apply lookup_singleton_eq.
  - apply lookup_singleton_eq.
Qed.

(** X3.  No run touches another warehouse than the one the play names:
    every mutating request other than a Create carries the play's
    [autonomous_data_warehouse_id] as its identifier, and a Create carries
    none. *)
Theorem mutating_requests_target_the_play :
  Forall (targets_the_play module)
    (mutating_calls (trace (run_module sdk db_client module w).2)).
Proof.
  pose proof (run_summary sdk db_client module w) as H.
  destruct (run_module sdk db_client module w) as [out st].
  cbn [fst snd] in *.
  destruct H as [res st ? ? ? Htr ?|ex st ? Htr ?|ex st ? Htr ?|adw st ? Htr ?
                |m kw ex st Hm Htr ?|m kw ref states ex st Hm Htr ?
                |m kw ref states adw st Hm Htr ?]; rewrite Htr.
  1-4: now constructor.
  all: unfold raising, returned; rewrite mutating_calls_of_change by eauto;
    constructor; [now apply request_for_targets|constructor].
Qed.

(** X4.  The [changed] flag of a normal exit tells the truth: the module
    exits with [changed = true] exactly when it has issued a mutating
    request, and with [changed = false] only when it has issued none. *)
Theorem changed_flag_is_truthful (res : Result) :
  (run_module sdk db_client module w).1 = exit_json res →
  if changed res
  then ∃ m kw, mutating_calls (trace (run_module sdk db_client module w).2)
               = [(m, kw)]
  else mutating_calls (trace (run_module sdk db_client module w).2) = [].
Proof.
  pose proof (run_summary sdk db_client module w) as H.
  destruct (run_module sdk db_client module w) as [out st].
  cbn [fst snd] in *. intros ->.
  inversion H as [res' st' ? ? Hc Htr ?| | |adw st' ? Htr ?
                 |m kw ex st' Hm Htr ? Hout|m kw ref states ex st' Hm Htr ? Hout
                 |m kw ref states adw st' Hm Htr ?]; subst.
  - rewrite Hc, Htr. reflexivity.
  - cbn. now rewrite Htr.
  - unfold surface in Hout. now destruct (handled module ex).
  - unfold surface in Hout. now destruct (handled module ex).
  - cbn. exists m, kw. rewrite Htr. apply mutating_calls_of_change; eauto.
Qed.

(** X5.  Nothing is swallowed: in a run that exits normally no remote call
    has raised, whatever the class of the exception. *)
Theorem normal_exit_saw_no_exception (res : Result) :
  (run_module sdk db_client module w).1 = exit_json res →
  Forall (λ ev, raised ev = None)
    (trace (run_module sdk db_client module w).2).
Proof.
  pose proof (run_summary sdk db_client module w) as H.
  destruct (run_module sdk db_client module w) as [out st].
  cbn [fst snd] in *. intros ->.
  inversion H as [res' st' ? ? Hc Htr ?| | |adw st' ? Htr ?
                 |m kw ex st' Hm Htr ? Hout|m kw ref states ex st' Hm Htr ? Hout
                 |m kw ref states adw st' Hm Htr ?]; subst.
  - rewrite Htr. constructor.
  - rewrite Htr. now repeat constructor.
  - unfold surface in Hout. now destruct (handled module ex).
  - unfold surface in Hout. now destruct (handled module ex).
  - rewrite Htr. apply Forall_app. split; [|now repeat constructor].
    destruct m; now repeat constructor.
Qed.

Lemma observation_returned (m : Method) (ev : Event) :
  ev ∈ observation module m → raised ev = None.
Proof.
  destruct m; cbn; intros H;
    first [now apply elem_of_nil in H
          |apply list_elem_of_singleton in H; now subst ev].
Qed.

Lemma last_two {A} (l : list A) (a b : A) : last (l ++ [a; b]) = Some b.
Proof.
  change (l ++ [a; b]) with (l ++ [a] ++ [b]).
  rewrite app_assoc. apply last_snoc.
Qed.

Lemma unhandled_surface (ex : exn) :
  is_fault ex = false → surface module ex = uncaught ex.
Proof.
  intros H. unfold surface, handled. rewrite H. now rewrite andb_false_r.
Qed.

(** X6.  Only a [ServiceError] or a [ClientError], the time-out of a wait
    being one by class, is ever turned into [fail_json].  When a remote call
    raises an exception of another class, the [ValueError] of the client on
    a missing identifier for one, the run ends there, that call being the
    last one issued, and the exception leaves [main] uncaught, in every
    state, [present] included. *)
Theorem other_exceptions_escape (ev : Event) (ex : exn) :
  ev ∈ trace (run_module sdk db_client module w).2 →
  raised ev = Some ex →
  is_fault ex = false →
  (run_module sdk db_client module w).1 = uncaught ex
  ∧ last (trace (run_module sdk db_client module w).2) = Some ev.
Proof.
  pose proof (run_summary sdk db_client module w) as H.
  destruct (run_module sdk db_client module w) as [out st].
  cbn [fst snd] in *. intros Hev Hex Hfault.
  destruct H as [res st ? ? ? Htr ?|ex0 st ? Htr ?|ex0 st ? Htr ?|adw st ? Htr ?
                |m kw ex0 st Hm Htr ?|m kw ref states ex0 st Hm Htr ?
                |m kw ref states adw st Hm Htr ?]; rewrite Htr in *.
  - now apply elem_of_nil in Hev.
  - apply list_elem_of_singleton in Hev. subst ev. cbn in Hex.
    injection Hex as ->. now split.
  - apply list_elem_of_singleton in Hev. now subst ev.
  - apply list_elem_of_singleton in Hev. now subst ev.
  - apply elem_of_app in Hev as [Hev|Hev].
    { apply observation_returned in Hev. congruence. }
    apply list_elem_of_singleton in Hev. subst ev. cbn in Hex.
    injection Hex as ->. rewrite unhandled_surface by exact Hfault.
    split; [reflexivity|apply last_snoc].
  - apply elem_of_app in Hev as [Hev|Hev].
    { apply observation_returned in Hev. congruence. }
    apply elem_of_cons in Hev as [->|Hev]; [discriminate Hex|].
    apply list_elem_of_singleton in Hev. subst ev. cbn in Hex.
    injection Hex as ->. rewrite unhandled_surface by exact Hfault.
    split; [reflexivity|apply last_two].
  - apply elem_of_app in Hev as [Hev|Hev].
    { apply observation_returned in Hev. congruence. }
    apply elem_of_cons in Hev as [->|Hev]; [discriminate Hex|].
    apply list_elem_of_singleton in Hev. now subst ev.
Qed.

(** X7.  The log of a run is decided by its last call: when that call
    raised a [ServiceError] or a [ClientError], the time-out of a wait
    included, under [present], the module has logged exactly one line, the
    handler's prefix followed by the fault's message; in every other run it
    has logged nothing. *)
Theorem log_is_the_handled_fault :
  log (run_module sdk db_client module w).2
  = match last_raised (trace (run_module sdk db_client module w).2) with
    | Some ex => if handled module ex then [log_line ex] else []
    | None => []
    end.
Proof.
  pose proof (run_summary sdk db_client module w) as H.
  destruct (run_module sdk db_client module w) as [out st].
  cbn [fst snd] in *. unfold last_raised.
  destruct H as [res st ? ? ? Htr Hlog|ex st Hlast Htr Hlog|ex st ? Htr Hlog
                |adw st ? Htr Hlog
                |m kw ex st Hm Htr Hlog|m kw ref states ex st Hm Htr Hlog
                |m kw ref states adw st Hm Htr Hlog]; rewrite Htr, Hlog.
  - reflexivity.
  - cbn. unfold handled. destruct Hlast as [-> _]. reflexivity.
  - reflexivity.
  - reflexivity.
  - now rewrite last_snoc.
  - now rewrite last_two.
  - now rewrite last_two.
Qed.

(** X8.  Start and stop observe before they act, and observe once: the
    first remote call of the run is the get on the play's identifier; when
    it raises nothing follows, and no later call is a get. *)
Theorem start_or_stop_observes_first :
  params_get module "state" = PStr "start"
  ∨ params_get module "state" = PStr "stop" →
  ∃ e tr,
    trace (run_module sdk db_client module w).2
    = {| call := Invoke DatabaseClient.get_autonomous_data_warehouse
                   (id_kwargs module);
         raised := e |} :: tr
    ∧ (e ≠ None → tr = [])
    ∧ Forall (λ ev, ∀ kw, call ev
                ≠ Invoke DatabaseClient.get_autonomous_data_warehouse kw) tr.
Proof.
  intros Hstate.
  pose proof (run_summary sdk db_client module w) as H.
  destruct (run_module sdk db_client module w) as [out st].
  cbn [fst snd] in *.
  assert (params_get module "state" ≠ PStr "present"
          ∧ params_get module "state" ≠ PStr "absent"
          ∧ params_get module "state" ≠ PStr "restore")
    as (Hnp & Hna & Hnr)
    by (destruct Hstate as [-> | ->]; repeat split; discriminate).
  assert (Hstart : ∀ kw e tail,
    (tail = [] ∨ ∃ ref states e', tail = [{| call := WaitFor ref states;
                                              raised := e' |}]) →
    ∀ m, request_for sdk module m kw →
    ∃ e0 tr,
      observation module m ++ {| call := Invoke m kw; raised := e |} :: tail
      = {| call := Invoke DatabaseClient.get_autonomous_data_warehouse
                     (id_kwargs module);
           raised := e0 |} :: tr
      ∧ (e0 ≠ None → tr = [])
      ∧ Forall (λ ev, ∀ kw, call ev
                  ≠ Invoke DatabaseClient.get_autonomous_data_warehouse kw) tr).
  { intros kw e tail Htail m Hm.
    destruct m; try contradiction; cbn in Hm; destruct_and!;
      try contradiction; exists None; eexists; (split; [reflexivity|]);
      (split; [congruence|]);
      destruct Htail as [->|(ref & states & e' & ->)];
      now repeat constructor. }
  destruct H as [res st Habs ? ? Htr ?|ex st ? Htr ?|ex st ? Htr ?|adw st ? Htr ?
                |m kw ex st Hm Htr ?|m kw ref states ex st Hm Htr ?
                |m kw ref states adw st Hm Htr ?]; rewrite Htr.
  - contradiction.
  - eexists _, []. split; [reflexivity|]. split; [reflexivity|constructor].
  - eexists _, []. split; [reflexivity|]. split; [reflexivity|constructor].
  - eexists _, []. split; [reflexivity|]. split; [reflexivity|constructor].
  - apply Hstart; eauto.
  - apply Hstart; eauto.
  - apply Hstart; eauto.
Qed.

(** X9.  Start or stop with an identifier that is not a string, [None]
    above all, on a warehouse the get does not find: the message of the
    [ClientError] is never built, because the concatenation with the
    identifier raises; a [TypeError] leaves [main] uncaught, after the get
    alone. *)
Theorem not_found_without_string_id (w' : W) :
  params_get module "state" = PStr "start"
  ∨ params_get module "state" = PStr "stop" →
  (∀ s, params_get module "autonomous_data_warehouse_id" ≠ PStr s) →
  request db_client DatabaseClient.get_autonomous_data_warehouse
    (id_kwargs module) w = (inr None, w') →
  ∃ msg st, run_module sdk db_client module w = (uncaught (TypeError msg), st)
    ∧ trace st = [returned (Invoke DatabaseClient.get_autonomous_data_warehouse
                              (id_kwargs module))]
    ∧ mutating_calls (trace st) = [].
Proof.
  intros Hstate Hid Hget.
  rewrite run_start_or_stop by exact Hstate.
  rewrite (start_or_stop_not_found _ _ _ _ _ Hget), bind_run.
  destruct (params_get module "autonomous_data_warehouse_id") as [| | |s| |];
    try (eexists _, _; split; [reflexivity|]; now split).
  now destruct (Hid s).
Qed.

End invariants.

(** ** What a request model depends on *)

Section model_frame.
Context (attribute_map : list string).

(** X10.  The loop that fills a request model reads the parameters named by
    the model's attribute map and no others: two plays that agree on those
    names, whatever else they hold, give the same model. *)
Theorem fill_model_reads_only_its_attributes (module1 module2 : AnsibleModule) :
  (∀ a, a ∈ attribute_map → params_get module1 a = params_get module2 a) →
  fill_model attribute_map module1 = fill_model attribute_map module2.
Proof.
  intros H. apply map_eq. intros a. rewrite !fill_model_lookup.
  destruct (bool_decide_reflect (a ∈ attribute_map)) as [Ha|Ha];
    [|reflexivity].
  now rewrite (H a Ha).
Qed.

(** X11.  The filled model does not depend on the order in which the
    attribute map is iterated, nor on a name coming twice: two maps with the
    same names give the same model. *)
Theorem fill_model_ignores_iteration_order (attribute_map' : list string)
    (module : AnsibleModule) :
  (∀ a, a ∈ attribute_map ↔ a ∈ attribute_map') →
  fill_model attribute_map module = fill_model attribute_map' module.
Proof.
  intros H. apply map_eq. intros a. rewrite !fill_model_lookup.
  destruct (bool_decide_reflect (a ∈ attribute_map)) as [Ha|Ha].
  - now rewrite bool_decide_eq_true_2 by now apply H.
  - rewrite bool_decide_eq_false_2; [reflexivity|].
    intros Ha'. apply Ha. now apply H.
Qed.

End model_frame.

(** ** Running the module twice *)

Section twice.
Context {W : Type} (sdk : Sdk) (db_client : DatabaseClient.t W).
Context (module : AnsibleModule).

(** A get leaves the remote world as it is. *)
Hypothesis get_reads : ∀ kw w r w',
  request db_client DatabaseClient.get_autonomous_data_warehouse kw w = (r, w') →
  w' = w.

(** A wait that returns has reached one of the states it was given, and a
    get right after it sees the snapshot the wait returned. *)
Hypothesis wait_settles : ∀ kw states adw w w',
  wait_for db_client kw (Some states) w = (inr adw, w') →
  lifecycle_state adw ∈ states
  ∧ request db_client DatabaseClient.get_autonomous_data_warehouse kw w'
    = (inr (Some adw), w').

(** A run whose get finds the warehouse in a state that already satisfies
    the play. *)
Lemma already_there (w : W) (adw : AutonomousDataWarehouse)
    (idempotent : list string) :
  (params_get module "state" = PStr "start"
   ∧ idempotent = ["AVAILABLE"; "STARTING"])
  ∨ (params_get module "state" = PStr "stop"
     ∧ idempotent = ["STOPPED"; "STOPPING"]) →
  request db_client DatabaseClient.get_autonomous_data_warehouse
    (id_kwargs module) w = (inr (Some adw), w) →
  lifecycle_state adw ∈ idempotent →
  ∃ st, run_module sdk db_client module w = (exit_json (unchanged sdk adw), st)
    ∧ mutating_calls (trace st) = []
    ∧ world st = w.
Proof.
  intros Hstate Hget Hin.
  rewrite run_start_or_stop by (destruct Hstate as [[? _]|[? _]]; auto).
  rewrite (start_or_stop_found _ _ _ _ _ _ Hget).
  destruct Hstate as [[Hs ->]|[Hs ->]];
    [rewrite perform_start_run by exact Hs|rewrite perform_stop_run by exact Hs];
    rewrite py_in_true by exact Hin;
    (eexists; split; [reflexivity|]; now split).
Qed.

(** X12.  Start and stop are idempotent over a client that keeps its word:
    when a run under start or stop has exited normally, running the same
    play again, on the world the first run left, issues no mutating request,
    leaves the world as it is and exits with [changed = false]. *)
Theorem start_or_stop_twice (w : W) (res : Result) (st : St W) :
  params_get module "state" = PStr "start"
  ∨ params_get module "state" = PStr "stop" →
  run_module sdk db_client module w = (exit_json res, st) →
  ∃ adw st',
    run_module sdk db_client module (world st)
    = (exit_json (unchanged sdk adw), st')
    ∧ mutating_calls (trace st') = []
    ∧ world st' = world st.
Proof.
  intros Hstate Hrun.
  rewrite run_start_or_stop in Hrun by exact Hstate.
  destruct (request db_client DatabaseClient.get_autonomous_data_warehouse
              (id_kwargs module) w) as [[ex|[adw|]] w'] eqn:Hget.
  - rewrite (start_or_stop_get_raises _ _ _ _ _ _ Hget) in Hrun.
    discriminate Hrun.
  - rewrite (start_or_stop_found _ _ _ _ _ _ Hget) in Hrun.
    pose proof (get_reads _ _ _ _ Hget) as ->.
    assert (Hcases : ∃ m idempotent target,
      ((params_get module "state" = PStr "start"
        ∧ idempotent = ["AVAILABLE"; "STARTING"])
       ∨ (params_get module "state" = PStr "stop"
          ∧ idempotent = ["STOPPED"; "STOPPING"]))
      ∧ (∀ x, x ∈ target → x ∈ idempotent)
      ∧ perform_start_or_stop sdk db_client adw
          (params_get module "autonomous_data_warehouse_id") module
          (after_get module None w)
        = if py_in (lifecycle_state adw) idempotent
          then (Ret (unchanged sdk adw), after_get module None w)
          else lifecycle_change sdk db_client m
                 (params_get module "autonomous_data_warehouse_id") target
                 (after_get module None w)).
    { destruct Hstate as [Hs|Hs].
      - exists DatabaseClient.start_autonomous_data_warehouse,
               ["AVAILABLE"; "STARTING"], ["AVAILABLE"].
        split; [now left|].
        split; [intros x ->%list_elem_of_singleton; apply list_elem_of_here|].
        now apply perform_start_run.
      - exists DatabaseClient.stop_autonomous_data_warehouse,
               ["STOPPED"; "STOPPING"], ["STOPPED"].
        split; [now right|].
        split; [intros x ->%list_elem_of_singleton; apply list_elem_of_here|].
        now apply perform_stop_run. }
    destruct Hcases as (m & idempotent & target & Hkind & Hsub & Hperform).
    rewrite Hperform in Hrun. clear Hperform.
    destruct (py_in (lifecycle_state adw) idempotent) eqn:Hin.
    + injection Hrun as <- <-. cbn [world after_get].
      exists adw. apply (already_there w adw idempotent Hkind Hget).
      unfold py_in in Hin. now apply bool_decide_eq_true in Hin.
    + unfold lifecycle_change, call_then_wait in Hrun.
      cbn [world after_get] in Hrun.
      destruct (request db_client m _ w) as [[ex|x] w1]; [discriminate Hrun|].
      destruct (wait_for db_client _ (Some target) w1) as [[ex|adw'] w2] eqn:Hwait;
        [discriminate Hrun|].
      injection Hrun as <- <-. cbn [world].
      apply wait_settles in Hwait as [Hstate' Hget'].
      exists adw'. apply (already_there w2 adw' idempotent Hkind Hget').
      now apply Hsub.
  - rewrite (start_or_stop_not_found _ _ _ _ _ Hget), bind_run in Hrun.
    now destruct (params_get module "autonomous_data_warehouse_id").
Qed.

End twice.

(** ** The invariants on the in-memory control plane *)

(** The warehouse [Cloud.stopped] once started. *)
Definition restarted : AutonomousDataWarehouse :=
  {| lifecycle_state := "AVAILABLE"; attributes := attributes Cloud.stopped |}.

Lemma cloud_get_reads (kw : kwargs) (w : Cloud.t)
    (r : exn + option AutonomousDataWarehouse) (w' : Cloud.t) :
  request Cloud.client DatabaseClient.get_autonomous_data_warehouse kw w
    = (r, w') →
  w' = w.
Proof.
  cbn. destruct (Cloud.ident kw); now intros [= _ <-].
Qed.

Lemma cloud_wait_settles (kw : kwargs) (states : list string)
    (adw : AutonomousDataWarehouse) (w w' : Cloud.t) :
  wait_for Cloud.client kw (Some states) w = (inr adw, w') →
  lifecycle_state adw ∈ states
  ∧ request Cloud.client DatabaseClient.get_autonomous_data_warehouse kw w'
    = (inr (Some adw), w').
Proof.
  cbn. unfold Cloud.wait_for.
  destruct (Cloud.ident kw) as [i|]; [|discriminate].
  destruct (w !! i) as [a|]; [|discriminate].
  destruct (bool_decide_reflect
    (lifecycle_state
       {| lifecycle_state := Cloud.settle (lifecycle_state a);
          attributes := attributes a |}
     ∈ default [lifecycle_state
                  {| lifecycle_state := Cloud.settle (lifecycle_state a);
                     attributes := attributes a |}] (Some states)))
    as [Hin|Hin]; [|discriminate].
  intros [= <- <-]. split; [exact Hin|].
  now rewrite lookup_insert_eq.
Qed.

Lemma changed_flag_is_truthful_witness :
  if changed (changed_to Cloud.sdk restarted)
  then ∃ m kw,
    mutating_calls
      (trace (run_module Cloud.sdk Cloud.client
                (Cloud.play "start" (PStr "x") ∅)
                {[ "x" := Cloud.stopped ]}).2)
    = [(m, kw)]
  else
    mutating_calls
      (trace (run_module Cloud.sdk Cloud.client
                (Cloud.play "start" (PStr "x") ∅)
                {[ "x" := Cloud.stopped ]}).2)
    = [].
Proof.
  apply (changed_flag_is_truthful Cloud.sdk Cloud.client
           (Cloud.play "start" (PStr "x") ∅) {[ "x" := Cloud.stopped ]}
           (changed_to Cloud.sdk restarted)).
  vm_compute. reflexivity.
Defined.

Lemma normal_exit_saw_no_exception_witness :
  Forall (λ ev, raised ev = None)
    (trace (run_module Cloud.sdk Cloud.client
              (Cloud.play "start" (PStr "x") ∅)
              {[ "x" := Cloud.stopped ]}).2).
Proof.
  apply (normal_exit_saw_no_exception Cloud.sdk Cloud.client
           (Cloud.play "start" (PStr "x") ∅) {[ "x" := Cloud.stopped ]}
           (changed_to Cloud.sdk restarted)).
  vm_compute. reflexivity.
Defined.

Lemma other_exceptions_escape_witness :
  let run := run_module Cloud.sdk Cloud.client
               (Cloud.play "stop" PNone ∅) {[ "x" := Cloud.available ]} in
  let ev := raising
              (Invoke DatabaseClient.get_autonomous_data_warehouse
                 (id_kwargs (Cloud.play "stop" PNone ∅)))
              Cloud.missing_id in
  run.1 = uncaught Cloud.missing_id
  ∧ last (trace run.2) = Some ev.
Proof.
  cbv zeta.
  apply (other_exceptions_escape Cloud.sdk Cloud.client
           (Cloud.play "stop" PNone ∅) {[ "x" := Cloud.available ]}).
  - vm_compute. apply list_elem_of_here.
  - reflexivity.
  - reflexivity.
Defined.

Lemma start_or_stop_observes_first_witness :
  ∃ e tr,
    trace (run_module Cloud.sdk Cloud.client
             (Cloud.play "stop" (PStr "x") ∅)
             {[ "x" := Cloud.available ]}).2
    = {| call := Invoke DatabaseClient.get_autonomous_data_warehouse
                   (id_kwargs (Cloud.play "stop" (PStr "x") ∅));
         raised := e |} :: tr
    ∧ (e ≠ None → tr = [])
    ∧ Forall (λ ev, ∀ kw, call ev
                ≠ Invoke DatabaseClient.get_autonomous_data_warehouse kw) tr.
Proof.
  apply (start_or_stop_observes_first Cloud.sdk Cloud.client
           (Cloud.play "stop" (PStr "x") ∅) {[ "x" := Cloud.available ]}).
  right. reflexivity.
Defined.

Lemma not_found_without_string_id_witness :
  ∃ msg st,
    run_module Cloud.sdk (Cloud.canned None) (Cloud.play "start" PNone ∅) tt
    = (uncaught (TypeError msg), st)
    ∧ trace st
      = [returned (Invoke DatabaseClient.get_autonomous_data_warehouse
                     (id_kwargs (Cloud.play "start" PNone ∅)))]
    ∧ mutating_calls (trace st) = [].
Proof.
  apply (not_found_without_string_id Cloud.sdk (Cloud.canned None)
           (Cloud.play "start" PNone ∅) tt tt).
  - left. reflexivity.
  - intros s H. vm_compute in H. discriminate H.
  - reflexivity.
Defined.

Lemma fill_model_reads_only_its_attributes_witness :
  fill_model ["timestamp"]
    (Cloud.play "restore" (PStr "x")
       {[ "timestamp" := PStr "2018-03-23T00:59:07.032Z" ]})
  = fill_model ["timestamp"]
      (Cloud.play "present" PNone
         {[ "timestamp" := PStr "2018-03-23T00:59:07.032Z";
            "db_name" := PStr "autonomousdb" ]}).
Proof.
  apply fill_model_reads_only_its_attributes.
  intros a ->%list_elem_of_singleton. reflexivity.
Defined.

Lemma fill_model_ignores_iteration_order_witness :
  fill_model ["db_name"; "cpu_core_count"]
    (Cloud.play "present" PNone {[ "db_name" := PStr "autonomousdb" ]})
  = fill_model ["cpu_core_count"; "db_name"; "cpu_core_count"]
      (Cloud.play "present" PNone {[ "db_name" := PStr "autonomousdb" ]}).
Proof.
  apply fill_model_ignores_iteration_order.
  intros a. rewrite !elem_of_cons, !elem_of_nil. tauto.
Defined.

Lemma start_or_stop_twice_witness :
  ∃ adw st',
    run_module Cloud.sdk Cloud.client (Cloud.play "start" (PStr "x") ∅)
      (world (run_module Cloud.sdk Cloud.client
                (Cloud.play "start" (PStr "x") ∅)
                {[ "x" := Cloud.stopped ]}).2)
    = (exit_json (unchanged Cloud.sdk adw), st')
    ∧ mutating_calls (trace st') = []
    ∧ world st'
      = world (run_module Cloud.sdk Cloud.client
                 (Cloud.play "start" (PStr "x") ∅)
                 {[ "x" := Cloud.stopped ]}).2.
Proof.
  apply (start_or_stop_twice Cloud.sdk Cloud.client
           (Cloud.play "start" (PStr "x") ∅)
           cloud_get_reads cloud_wait_settles
           {[ "x" := Cloud.stopped ]} (changed_to Cloud.sdk restarted)).
  - left. reflexivity.
  - vm_compute. reflexivity.
Defined.
